(** * f1-alert: the notification scheduler of [index.py]

    A shallow embedding of the bot's configuration block, of the fetch
    [obtener_carreras_f1], of the scheduling routine
    [programar_avisos_para_sesion], of the periodic pass [check_for_races]
    and of the job callback [enviar_notificacion], followed by the
    properties of the scheduling and deduplication engine.

    Conventions of the embedding.
    - Decoded JSON is a [pyval]; its numbers are integers or doubles.  Text
      is a sequence of bytes, and what the interpreter does with characters
      outside ASCII ([int()] on other digits and spaces) is not modelled.
    - A [datetime] is a naive date, counted in microseconds from
      1970-01-01 00:00:00 of the same calendar, between the years 1 and
      9999; [timedelta] and the sum of a date and a [timedelta] raise
      [OverflowError] outside their ranges, as the library does.
    - The quotient [startAt / 1000] is a double; it is kept as its dividend,
      and the date [datetime.fromtimestamp] makes of it (rounding, zone
      rules, the range of the platform) is the runtime's, as is
      [datetime.timestamp()].
    - [datetime.now()] is an effect: the n-th call of a run returns the n-th
      reading of a clock, and the world counts the readings taken.
    - The job store is a finite map from job ids to jobs, as the table of
      APScheduler's SQLAlchemyJobStore with its primary key.  The scheduler
      is APScheduler's, which the source reaches as
      [context.application.job_queue.scheduler]: its [add_job] hands the
      keyword arguments it does not name to the constructor of the trigger.
    - The coroutines never yield inside the code modelled here, so a pass
      runs as a sequence. *)

From Stdlib Require Import ZArith String Ascii List Bool Lia SpecFloat.
From stdpp Require Import base option list strings pretty gmap.

Set Warnings "-register-all".

Local Open Scope Z_scope.
Local Open Scope string_scope.

(** ** Python values *)

Inductive pyval : Type :=
| PNone
| PBool (b : bool)
| PInt (z : Z)
| PFloat (f : spec_float)
| PStr (s : string)
| PList (l : list pyval)
| PDict (d : list (string * pyval)).

(** The subclasses of [requests.RequestException] that the fetch can meet;
    [response.json()] raises one of them on a body that is not JSON. *)
Inductive request_error : Type :=
| ConnectionError
| Timeout
| HTTPError (status_code : Z)
| JSONDecodeError.

(** The exceptions of the model. *)
Inductive exn : Type :=
| TypeError
| AttributeError
| KeyError (k : string)
| ValueError
| OverflowError
| OSError
| ConflictingIdError (id : string)
| RequestException (e : request_error).

Definition result (A : Type) : Type := (exn + A)%type.

(** [d[k]] on the items of a dict; the keys of a Python dict are distinct,
    so the first match is the only one. *)
Fixpoint dict_lookup {V : Type} (k : string) (d : list (string * V)) : option V :=
  match d with
  | [] => None
  | (k', v) :: d' => if String.eqb k k' then Some v else dict_lookup k d'
  end.

(** [d.get(k, default)] on the items of a dict. *)
Definition campo (d : list (string * pyval)) (k : string) (default : pyval) : pyval :=
  match dict_lookup k d with
  | Some x => x
  | None => default
  end.

(** [v.get(k, default)]: only a dict has the method. *)
Definition py_get (v : pyval) (k : string) (default : pyval) : result pyval :=
  match v with
  | PDict d => inr (campo d k default)
  | _ => inl AttributeError
  end.

(** Truth value of an object, as [if], [and] and [not] test it. *)
Definition py_truthy (v : pyval) : bool :=
  match v with
  | PNone => false
  | PBool b => b
  | PInt z => negb (Z.eqb z 0)
  | PFloat f => match f with S754_zero _ => false | _ => true end
  | PStr s => negb (String.eqb s "")
  | PList l => match l with [] => false | _ => true end
  | PDict d => match d with [] => false | _ => true end
  end.

(** Two values are scalars of one type: both [None], both booleans, both
    integers or both strings. *)
Definition mismo_tipo (a b : pyval) : bool :=
  match a, b with
  | PNone, PNone => true
  | PBool _, PBool _ => true
  | PInt _, PInt _ => true
  | PStr _, PStr _ => true
  | _, _ => false
  end.

Fixpoint chars (s : string) : list pyval :=
  match s with
  | EmptyString => []
  | String c s' => PStr (String c EmptyString) :: chars s'
  end.

(** The items a [for] loop or a comprehension draws from an object: the
    elements of a list, the keys of a dict, the characters of a string;
    nothing else in the model is iterable. *)
Definition py_iter (v : pyval) : result (list pyval) :=
  match v with
  | PList l => inr l
  | PDict d => inr (map (fun kv => PStr (fst kv)) d)
  | PStr s => inr (chars s)
  | _ => inl TypeError
  end.

(** [v == s] for a string [s]. *)
Definition py_eq_str (v : pyval) (s : string) : bool :=
  match v with
  | PStr s' => String.eqb s' s
  | _ => false
  end.

(** A double that is the quotient of a JSON number by 1000, kept as its
    dividend. *)
Inductive quotient : Type :=
| int_div_1000 (z : Z)
| float_div_1000 (f : spec_float).

(** The least magnitude that rounds to no finite double: [2^1024 - 2^970]. *)
Definition double_overflow : Z := 2 ^ 1024 - 2 ^ 970.

(** [v / 1000].  The quotient of two integers is the double nearest to it,
    and the division raises when there is none; [bool] is a subclass of
    [int], the quotient of a double is a double, and every other type of
    the model raises. *)
Definition div_1000 (v : pyval) : result quotient :=
  match v with
  | PInt z =>
      if Z.ltb (Z.abs z) (1000 * double_overflow)
      then inr (int_div_1000 z) else inl OverflowError
  | PBool b => inr (int_div_1000 (Z.b2z b))
  | PFloat f => inr (float_div_1000 f)
  | _ => inl TypeError
  end.

Definition last_char (s : string) : option ascii :=
  last (list_ascii_of_string s).

Definition rbind {A B : Type} (r : result A) (k : A -> result B) : result B :=
  match r with
  | inl e => inl e
  | inr a => k a
  end.

(** ** Dates *)

Definition datetime : Type := Z.

(** [datetime.min] and [datetime.max]: 0001-01-01 00:00:00 and
    9999-12-31 23:59:59.999999. *)
Definition datetime_min : datetime := -62135596800000000.

Definition datetime_max : datetime := 253402300799999999.

(** A [timedelta] of so many microseconds: its days are limited to
    999999999 in magnitude. *)
Definition timedelta (microseconds : Z) : result Z :=
  let days := microseconds / 86400000000 in
  if Z.leb (-999999999) days && Z.leb days 999999999
  then inr microseconds else inl OverflowError.

(** [timedelta(hours=h)] and [timedelta(days=d)] for integers. *)
Definition timedelta_hours (h : Z) : result Z := timedelta (h * 3600000000).

Definition timedelta_days (d : Z) : result Z := timedelta (d * 86400000000).

(** [fecha + delta] and [fecha - delta]: the result is a date of the years
    1 to 9999, or the operation raises. *)
Definition datetime_add (fecha : datetime) (delta : Z) : result datetime :=
  let r := fecha + delta in
  if Z.leb datetime_min r && Z.leb r datetime_max then inr r else inl OverflowError.

Definition datetime_sub (fecha : datetime) (delta : Z) : result datetime :=
  datetime_add fecha (- delta).

Definition two_digits (n : Z) : string :=
  if Z.ltb n 10 then "0" +:+ pretty n else pretty n.

(** Day of the month and month of a day count from 1970-01-01 (proleptic
    Gregorian calendar). *)
Definition civil_from_days (days : Z) : Z * Z :=
  let z := days + 719468 in
  let era := z / 146097 in
  let doe := z - era * 146097 in
  let yoe := (doe - doe / 1460 + doe / 36524 - doe / 146096) / 365 in
  let doy := doe - (365 * yoe + yoe / 4 - yoe / 100) in
  let mp := (5 * doy + 2) / 153 in
  let d := doy - (153 * mp + 2) / 5 + 1 in
  let m := if Z.ltb mp 10 then mp + 3 else mp - 9 in
  (d, m).

(** [fecha.strftime('%H:%M hs del %d/%m')]. *)
Definition strftime (fecha : datetime) : string :=
  let secs := fecha / 1000000 in
  let sod := secs mod 86400 in
  let '(d, m) := civil_from_days (secs / 86400) in
  two_digits (sod / 3600) +:+ ":" +:+ two_digits ((sod / 60) mod 60) +:+
  " hs del " +:+ two_digits d +:+ "/" +:+ two_digits m.

(** ** Configuration *)

Record Config : Type := {
  TELEGRAM_TOKEN : string;
  TELEGRAM_CHANNEL_ID : string;
  DATABASE_URL : string;
  WEBHOOK_URL : string;
  PORT : Z;
  API_URL : string;
  API_DAYS_AHEAD : Z;
  NOTIFICATION_LEAD_HOURS : Z;
  CHECK_INTERVAL_HOURS : Z;
  F1_CATEGORY_ID : string
}.

(** What the interpreter and the host provide: the readings of the wall
    clock in the order [datetime.now()] takes them;
    [datetime.fromtimestamp] of a quotient by 1000, which gives the naive
    local date or raises ([ValueError], [OverflowError] or [OSError], by the
    platform); whether [fecha.timestamp()] raises, its float going nowhere
    but into the parameters of the request; and [repr] of a float or of a
    container. *)
Record Runtime : Type := {
  clock : nat -> datetime;
  fromtimestamp : quotient -> result datetime;
  timestamp : datetime -> result unit;
  py_repr : pyval -> string
}.

(** *** The configuration block read from [os.environ] *)

(** The whitespace that [int()] skips around an ASCII literal: tab, line
    feed, vertical tab, form feed, carriage return and space. *)
Definition py_isspace (c : ascii) : bool :=
  let n := nat_of_ascii c in
  (Nat.leb 9 n && Nat.leb n 13) || Nat.eqb n 32.

Fixpoint lstrip (s : string) : string :=
  match s with
  | EmptyString => EmptyString
  | String c s' => if py_isspace c then lstrip s' else s
  end.

Definition strip (s : string) : string :=
  String.rev (lstrip (String.rev (lstrip s))).

Definition digit_of (c : ascii) : option Z :=
  let n := nat_of_ascii c in
  if Nat.leb 48 n && Nat.leb n 57 then Some (Z.of_nat n - 48) else None.

(** Decimal digits, with single underscores between digits only;
    [after_digit] tells whether the previous character was a digit. *)
Fixpoint digits (acc : Z) (after_digit : bool) (s : string) : option Z :=
  match s with
  | EmptyString => if after_digit then Some acc else None
  | String c s' =>
      match digit_of c with
      | Some d => digits (10 * acc + d) true s'
      | None =>
          if Ascii.eqb c "_" && after_digit then digits acc false s' else None
      end
  end.

(** The number of decimal digits of a literal. *)
Fixpoint count_digits (s : string) : nat :=
  match s with
  | EmptyString => 0%nat
  | String c s' =>
      match digit_of c with
      | Some _ => S (count_digits s')
      | None => count_digits s'
      end
  end.

(** [int(s)] for a string, on ASCII input: surrounding whitespace, an
    optional sign, decimal digits, no more of them than the interpreter's
    default limit of 4300. *)
Definition py_int (s : string) : result Z :=
  let t := strip s in
  let r :=
    match t with
    | String "+" u => digits 0 false u
    | String "-" u => Z.opp <$> digits 0 false u
    | _ => digits 0 false t
    end in
  match r with
  | Some z => if Nat.leb (count_digits t) 4300 then inr z else inl ValueError
  | None => inl ValueError
  end.

(** [os.environ[k]]. *)
Definition environ_item (environ : gmap string string) (k : string) : result string :=
  match environ !! k with
  | Some v => inr v
  | None => inl (KeyError k)
  end.

(** [int(os.getenv(k, default))] with an integer default. *)
Definition getenv_int (environ : gmap string string) (k : string) (default : Z) : result Z :=
  match environ !! k with
  | Some v => py_int v
  | None => inr default
  end.

(** [os.getenv(k, default)] with a string default. *)
Definition getenv (environ : gmap string string) (k default : string) : string :=
  match environ !! k with
  | Some v => v
  | None => default
  end.

(** The body of the [try] of the configuration block, in the order of the
    assignments. *)
Definition leer_configuracion (environ : gmap string string) : result Config :=
  rbind (environ_item environ "TELEGRAM_TOKEN") (fun token =>
  rbind (environ_item environ "TELEGRAM_CHANNEL_ID") (fun channel =>
  rbind (environ_item environ "DATABASE_URL") (fun database =>
  rbind (environ_item environ "WEBHOOK_URL") (fun webhook =>
  rbind (py_int (getenv environ "PORT" "8080")) (fun port =>
  let api_url := getenv environ "API_URL"
    "https://backend-vuelta-rapida-production.up.railway.app/api/races" in
  rbind (getenv_int environ "API_DAYS_AHEAD" 90) (fun days =>
  rbind (getenv_int environ "NOTIFICATION_LEAD_HOURS" 8) (fun lead =>
  rbind (getenv_int environ "CHECK_INTERVAL_HOURS" 4) (fun interval =>
  inr {| TELEGRAM_TOKEN := token;
         TELEGRAM_CHANNEL_ID := channel;
         DATABASE_URL := database;
         WEBHOOK_URL := webhook;
         PORT := port;
         API_URL := api_url;
         API_DAYS_AHEAD := days;
         NOTIFICATION_LEAD_HOURS := lead;
         CHECK_INTERVAL_HOURS := interval;
         F1_CATEGORY_ID := getenv environ "F1_CATEGORY_ID" "f1" |})))))))).

(** How the module ends its configuration block: with the configuration,
    with the error message naming a variable followed by [exit()], or with
    an exception nothing catches. *)
Inductive startup : Type :=
| Started (c : Config)
| ExitMissing (variable : string)
| Uncaught (e : exn).

Definition configurar (environ : gmap string string) : startup :=
  match leer_configuracion environ with
  | inr c => Started c
  | inl (KeyError k) => ExitMissing k
  | inl e => Uncaught e
  end.

Definition mandatory_variables : list string :=
  ["TELEGRAM_TOKEN"; "TELEGRAM_CHANNEL_ID"; "DATABASE_URL"; "WEBHOOK_URL"].

Definition integer_variables : list string :=
  ["PORT"; "API_DAYS_AHEAD"; "NOTIFICATION_LEAD_HOURS"; "CHECK_INTERVAL_HOURS"].

(** ** The job store and the effects of a run *)

(** A job with a ['date'] trigger, as a call of [add_job] describes it by
    its keyword arguments [id], [name], [run_date] and, when the call gives
    one, [data]. *)
Record Job : Type := {
  job_id : string;
  job_name : string;
  run_date : datetime;
  job_data : option (list (string * string))
}.

(** The part of the process a run reads and writes: the stored jobs and
    the number of clock readings taken so far. *)
Record World : Type := {
  jobs : gmap string Job;
  tick : nat
}.

(** A computation either raises or returns, and leaves a world behind in
    both cases. *)
Definition M (A : Type) : Type := World -> result A * World.

Definition ret {A : Type} (a : A) : M A := fun w => (inr a, w).

Definition raise {A : Type} (e : exn) : M A := fun w => (inl e, w).

Definition bind {A B : Type} (m : M A) (k : A -> M B) : M B :=
  fun w =>
    match m w with
    | (inl e, w') => (inl e, w')
    | (inr a, w') => k a w'
    end.

Definition lift {A : Type} (r : result A) : M A :=
  match r with
  | inl e => raise e
  | inr a => ret a
  end.

Declare Scope run_scope.
Delimit Scope run_scope with run.
Notation "x <- m ;; k" := (bind m (fun x => k))
  (at level 100, m at next level, right associativity) : run_scope.
Notation "m ;;; k" := (bind m (fun _ => k))
  (at level 100, right associativity) : run_scope.
Local Open Scope run_scope.

(** [scheduler.get_job(id)]. *)
Definition get_job (id : string) : M (option Job) :=
  fun w => (inr (jobs w !! id), w).

(** The keyword arguments that a call of [add_job] leaves to the trigger:
    [run_date] always, and [data] when the call gives one. *)
Definition trigger_args (j : Job) : list string :=
  match job_data j with
  | Some _ => ["run_date"; "data"]
  | None => ["run_date"]
  end.

(** The constructor of the ['date'] trigger,
    [DateTrigger(run_date=None, timezone=None)], takes these keywords and
    raises [TypeError] on any other. *)
Definition DateTrigger (args : list string) : result unit :=
  if forallb (fun k => String.eqb k "run_date" || String.eqb k "timezone") args
  then inr tt else inl TypeError.

(** [scheduler.add_job(enviar_notificacion, 'date', run_date=..., data=...,
    id=..., name=..., replace_existing=...)]: the scheduler builds the
    trigger from the keyword arguments it does not name itself, [run_date]
    and [data], before it looks at the store.  With a trigger, the store
    refuses a second job under an id, and the scheduler then updates the
    stored job when asked to replace and raises otherwise. *)
Definition add_job (j : Job) (replace_existing : bool) : M unit :=
  fun w =>
    match DateTrigger (trigger_args j) with
    | inl e => (inl e, w)
    | inr _ =>
        match jobs w !! job_id j with
        | None => (inr tt, {| jobs := <[job_id j := j]> (jobs w); tick := tick w |})
        | Some _ =>
            if replace_existing
            then (inr tt, {| jobs := <[job_id j := j]> (jobs w); tick := tick w |})
            else (inl (ConflictingIdError (job_id j)), w)
        end
    end.

(** The clock never runs backwards. *)
Definition monotone_clock (clock : nat -> datetime) : Prop :=
  forall i j : nat, (i <= j)%nat -> clock i <= clock j.

(** The two notices of a session: the one of the lead hours before the
    start and the one of the start. *)
Inductive kind : Type := LEAD | START.

(** The call [context.bot.send_message(chat_id=..., text=..., parse_mode=...)]. *)
Record Mensaje : Type := {
  chat_id : string;
  text : pyval;
  parse_mode : string
}.

(** What the Event Source answers to [requests.get]: the call raises, or
    returns a status code and a body; the body is [None] when
    [response.json()] raises the client's [JSONDecodeError], and the decoded
    document otherwise.  A document that the decoder refuses for another
    reason (an integer of more than 4300 digits) is not among the answers
    of the model. *)
Inductive http_reply : Type :=
| RequestFailed (e : request_error)
| Reply (status_code : Z) (body : option pyval).

(** What a pass of [check_for_races] writes to the log at its end. *)
Inductive outcome : Type :=
| NoRaces
| NewSessions (nuevas_sesiones_programadas : nat).

Section Bot.

Context (cfg : Config) (rt : Runtime).

(** [datetime.now()]. *)
Definition now : M datetime :=
  fun w => (inr (clock rt (tick w)), {| jobs := jobs w; tick := S (tick w) |}).

(** The text an f-string puts for [{v}]. *)
Definition py_str (v : pyval) : string :=
  match v with
  | PNone => "None"
  | PBool true => "True"
  | PBool false => "False"
  | PInt z => pretty z
  | PStr s => s
  | _ => py_repr rt v
  end.

(** *** Job ids, names and messages *)

Definition id_aviso_previo (sesion_id : pyval) : string :=
  py_str sesion_id +:+ "_channel_" +:+ pretty (NOTIFICATION_LEAD_HOURS cfg) +:+ "hr".

Definition id_aviso_inicio (sesion_id : pyval) : string :=
  py_str sesion_id +:+ "_channel_start".

Definition trigger_id (sesion_id : pyval) (k : kind) : string :=
  match k with
  | LEAD => id_aviso_previo sesion_id
  | START => id_aviso_inicio sesion_id
  end.

Definition mensaje_previo (nombre_sesion nombre_evento : pyval)
    (fecha_hora_inicio : datetime) : string :=
  "🏎️ *¡Atención!* La sesión **" +:+ py_str nombre_sesion +:+ "** de **" +:+
  py_str nombre_evento +:+ "** " +:+
  "comienza en " +:+ pretty (NOTIFICATION_LEAD_HOURS cfg) +:+ " horas (a las " +:+
  strftime fecha_hora_inicio +:+ ").".

Definition mensaje_inicio (nombre_sesion nombre_evento : pyval) : string :=
  "🟢 *¡Arrancó!* La sesión **" +:+ py_str nombre_sesion +:+ "** de **" +:+
  py_str nombre_evento +:+ "** ha comenzado.".

(** The keyword arguments of the two calls of [add_job]. *)
Definition job_aviso_previo (sesion_id nombre_sesion nombre_evento : pyval)
    (fecha_hora_inicio : datetime) : Job :=
  {| job_id := id_aviso_previo sesion_id;
     job_name := "Notificación " +:+ pretty (NOTIFICATION_LEAD_HOURS cfg) +:+
                 "h antes para " +:+ py_str nombre_sesion;
     run_date := fecha_hora_inicio - NOTIFICATION_LEAD_HOURS cfg * 3600000000;
     job_data :=
       Some [("mensaje", mensaje_previo nombre_sesion nombre_evento fecha_hora_inicio)] |}.

Definition job_aviso_inicio (sesion_id nombre_sesion nombre_evento : pyval)
    (fecha_hora_inicio : datetime) : Job :=
  {| job_id := id_aviso_inicio sesion_id;
     job_name := "Notificación de inicio para " +:+ py_str nombre_sesion;
     run_date := fecha_hora_inicio;
     job_data := Some [("mensaje", mensaje_inicio nombre_sesion nombre_evento)] |}.

(** *** [enviar_notificacion] *)

(** The callback, applied to a context whose [context.job.data] is [data]:
    it reads [data['mensaje']] and hands it to [send_message]; a failure of
    the delivery is caught and logged there, so the call made is all that
    the callback does.  Only a dict can be subscripted by a string. *)
Definition enviar_notificacion (data : pyval) : result Mensaje :=
  match data with
  | PDict d =>
      match dict_lookup "mensaje" d with
      | Some mensaje =>
          inr {| chat_id := TELEGRAM_CHANNEL_ID cfg;
                 text := mensaje;
                 parse_mode := "Markdown" |}
      | None => inl (KeyError "mensaje")
      end
  | _ => inl TypeError
  end.

(** *** [programar_avisos_para_sesion] *)

(** [fecha_hora_inicio - timedelta(hours=NOTIFICATION_LEAD_HOURS)]. *)
Definition fecha_aviso_previo (fecha_hora_inicio : datetime) : result datetime :=
  rbind (timedelta_hours (NOTIFICATION_LEAD_HOURS cfg)) (datetime_sub fecha_hora_inicio).

(** The two dates that the routine computes from [startAt] before it
    reads the clock: the local start and the date of the advance notice. *)
Definition fechas (startAt : pyval) : result (datetime * datetime) :=
  rbind (div_1000 startAt) (fun timestamp_sesion =>
  rbind (fromtimestamp rt timestamp_sesion) (fun fecha_hora_inicio =>
  rbind (fecha_aviso_previo fecha_hora_inicio) (fun previo =>
  inr (fecha_hora_inicio, previo)))).

Definition programar_avisos_para_sesion (sesion nombre_evento : pyval) : M unit :=
  sesion_id <- lift (py_get sesion "id" PNone) ;;
  nombre_sesion <- lift (py_get sesion "name" (PStr "Sesión")) ;;
  startAt <- lift (py_get sesion "startAt" (PInt 0)) ;;
  timestamp_sesion <- lift (div_1000 startAt) ;;
  fecha_hora_inicio <- lift (fromtimestamp rt timestamp_sesion) ;;
  previo <- lift (fecha_aviso_previo fecha_hora_inicio) ;;
  ahora <- now ;;
  (if Z.gtb previo ahora
   then add_job (job_aviso_previo sesion_id nombre_sesion nombre_evento
                   fecha_hora_inicio) true
   else ret tt) ;;;
  ahora <- now ;;
  if Z.gtb fecha_hora_inicio ahora
  then add_job (job_aviso_inicio sesion_id nombre_sesion nombre_evento
                  fecha_hora_inicio) true
  else ret tt.

(** *** [obtener_carreras_f1] *)

(** The window of the request, from the reading [fecha_inicio] of the
    clock: [fecha_inicio + timedelta(days=API_DAYS_AHEAD)] and the two
    [timestamp()] of the parameters. *)
Definition ventana (fecha_inicio : datetime) : result unit :=
  rbind (timedelta_days (API_DAYS_AHEAD cfg)) (fun delta =>
  rbind (datetime_add fecha_inicio delta) (fun fecha_fin =>
  rbind (timestamp rt fecha_inicio) (fun _ =>
  timestamp rt fecha_fin))).

(** [[c for c in carreras if c.get('categoryId') == F1_CATEGORY_ID]]. *)
Fixpoint filtrar_categoria (carreras : list pyval) : result (list pyval) :=
  match carreras with
  | [] => inr []
  | c :: rest =>
      rbind (py_get c "categoryId" PNone) (fun categoria =>
      rbind (filtrar_categoria rest) (fun rest' =>
      inr (if py_eq_str categoria (F1_CATEGORY_ID cfg) then c :: rest' else rest')))
  end.

(** The body of the [try]: [requests.get], [raise_for_status],
    [response.json()], the lookup of ['races'] and the filter. *)
Definition pedir_carreras (respuesta : http_reply) : result (list pyval) :=
  match respuesta with
  | RequestFailed e => inl (RequestException e)
  | Reply status_code body =>
      if Z.leb 400 status_code && Z.ltb status_code 600
      then inl (RequestException (HTTPError status_code))
      else
        match body with
        | None => inl (RequestException JSONDecodeError)
        | Some datos =>
            rbind (py_get datos "races" (PList [])) (fun carreras =>
            rbind (py_iter carreras) filtrar_categoria)
        end
  end.

(** The function reads the clock once and computes the window of the
    request before the [try]; inside it, it answers the empty list to what
    [except requests.RequestException] catches. *)
Definition obtener_carreras_f1 (respuesta : http_reply) : M (list pyval) :=
  fecha_inicio <- now ;;
  lift (ventana fecha_inicio) ;;;
  match pedir_carreras respuesta with
  | inr carreras => ret carreras
  | inl (RequestException _) => ret []
  | inl e => raise e
  end.

(** *** [check_for_races] *)

(** The body of the inner loop, for one session; [n] is
    [nuevas_sesiones_programadas]. *)
Definition revisar_sesion (nombre_evento sesion : pyval) (n : nat) : M nat :=
  sesion_id <- lift (py_get sesion "id" PNone) ;;
  startAt <- lift (py_get sesion "startAt" (PInt 0)) ;;
  timestamp_sesion <- lift (div_1000 startAt) ;;
  en_el_futuro <-
    (if py_truthy sesion_id
     then fecha <- lift (fromtimestamp rt timestamp_sesion) ;;
          ahora <- now ;;
          ret (Z.gtb fecha ahora)
     else ret false) ;;
  if en_el_futuro : bool
  then
    job_existente <- get_job (id_aviso_inicio sesion_id) ;;
    match job_existente with
    | Some _ => ret n
    | None => programar_avisos_para_sesion sesion nombre_evento ;;; ret (S n)
    end
  else ret n.

Fixpoint revisar_sesiones (nombre_evento : pyval) (sesiones : list pyval)
    (n : nat) : M nat :=
  match sesiones with
  | [] => ret n
  | sesion :: resto =>
      n' <- revisar_sesion nombre_evento sesion n ;;
      revisar_sesiones nombre_evento resto n'
  end.

Definition revisar_carrera (carrera : pyval) (n : nat) : M nat :=
  nombre_evento <- lift (py_get carrera "completeName" (PStr "Evento F1")) ;;
  schedules <- lift (py_get carrera "schedules" (PList [])) ;;
  sesiones <- lift (py_iter schedules) ;;
  revisar_sesiones nombre_evento sesiones n.

Fixpoint revisar_carreras (carreras : list pyval) (n : nat) : M nat :=
  match carreras with
  | [] => ret n
  | carrera :: resto =>
      n' <- revisar_carrera carrera n ;;
      revisar_carreras resto n'
  end.

Definition check_for_races (respuesta : http_reply) : M outcome :=
  carreras_f1 <- obtener_carreras_f1 respuesta ;;
  match carreras_f1 with
  | [] => ret NoRaces
  | _ :: _ =>
      nuevas_sesiones_programadas <- revisar_carreras carreras_f1 0%nat ;;
      ret (NewSessions nuevas_sesiones_programadas)
  end.

(** [job_queue.run_repeating(check_for_races, ...)]: one pass per interval,
    each fed with what the Event Source answers then.  A pass starts from
    the world the previous one left, however that one ended: the job queue
    logs an exception of a callback and keeps the schedule. *)
Definition run_repeating (respuestas : list http_reply) (w : World) : World :=
  fold_left (fun w' respuesta => snd (check_for_races respuesta w')) respuestas w.

(** The world after one more reading of the clock. *)
Definition leido (w : World) : World :=
  {| jobs := jobs w; tick := S (tick w) |}.

(** The sessions of a race, and those of all the races of the category in
    an answer: what a pass iterates over. *)
Definition sesiones_de (carrera : pyval) : list pyval :=
  match rbind (py_get carrera "schedules" (PList [])) py_iter with
  | inr sesiones => sesiones
  | inl _ => []
  end.

Definition sesiones_recibidas (respuesta : http_reply) : list pyval :=
  match pedir_carreras respuesta with
  | inr carreras => flat_map sesiones_de carreras
  | inl _ => []
  end.

(** A job id belongs to a session record: the record has an [id] and a
    [startAt], and the id is the trigger id of its [id] for some kind. *)
Definition trigger_de (sesion : pyval) (tid : string) : Prop :=
  exists (d : list (string * pyval)) (k : kind),
    sesion = PDict d /\
    is_Some (dict_lookup "id" d) /\
    is_Some (dict_lookup "startAt" d) /\
    tid = trigger_id (campo d "id" PNone) k.

End Bot.

(** The answers that [except requests.RequestException] turns into an
    empty list: the request raised, the status is an error, or the body is
    not JSON. *)
Definition fetch_failed (respuesta : http_reply) : bool :=
  match respuesta with
  | RequestFailed _ => true
  | Reply status_code body =>
      (Z.leb 400 status_code && Z.ltb status_code 600) ||
      match body with None => true | Some _ => false end
  end.

(** ** What a pass receives and stores *)

(** The races that a pass iterates over: those of the answer that the
    filter of [obtener_carreras_f1] lets through. *)
Definition carreras_recibidas (cfg : Config) (respuesta : http_reply) : list pyval :=
  match pedir_carreras cfg respuesta with
  | inr carreras => carreras
  | inl _ => []
  end.

(** The test of the filter: [c.get('categoryId') == F1_CATEGORY_ID]. *)
Definition es_de_categoria (cfg : Config) (carrera : pyval) : bool :=
  match py_get carrera "categoryId" PNone with
  | inr categoria => py_eq_str categoria (F1_CATEGORY_ID cfg)
  | inl _ => false
  end.

(** [carrera.get('completeName', 'Evento F1')] for a race that has the
    method. *)
Definition nombre_de (carrera : pyval) : pyval :=
  match py_get carrera "completeName" (PStr "Evento F1") with
  | inr nombre_evento => nombre_evento
  | inl _ => PNone
  end.

(** The job [j] under the id [tid] is one of the two notices that the
    scheduling routine builds for the session record [sesion] of the event
    [nombre_evento]: the record is a dict with a true id and a [startAt]
    that divides and has a date. *)
Definition aviso_de (cfg : Config) (rt : Runtime) (nombre_evento sesion : pyval)
    (tid : string) (j : Job) : Prop :=
  exists (d : list (string * pyval)) (q : quotient) (fecha : datetime),
    sesion = PDict d /\
    py_truthy (campo d "id" PNone) = true /\
    div_1000 (campo d "startAt" (PInt 0)) = inr q /\
    fromtimestamp rt q = inr fecha /\
    ((tid = id_aviso_previo cfg rt (campo d "id" PNone) /\
      j = job_aviso_previo cfg rt (campo d "id" PNone)
            (campo d "name" (PStr "Sesión")) nombre_evento fecha) \/
     (tid = id_aviso_inicio rt (campo d "id" PNone) /\
      j = job_aviso_inicio rt (campo d "id" PNone)
            (campo d "name" (PStr "Sesión")) nombre_evento fecha)).

(** The run date of [j] is later than a reading of the clock taken between
    the worlds [w] and [w']. *)
Definition reciente (rt : Runtime) (w w' : World) (j : Job) : Prop :=
  exists t : nat, (tick w <= t < tick w')%nat /\ clock rt t < run_date j.

(** The first mandatory variable, in the order of the configuration block,
    that the environment does not define. *)
Definition primera_ausente (environ : gmap string string) : option string :=
  List.find (fun v => match environ !! v with None => true | Some _ => false end)
    mandatory_variables.

(** A race or a session record is a dict. *)
Definition es_dict (v : pyval) : bool :=
  match v with
  | PDict _ => true
  | _ => false
  end.

(** The outcome of the loop body when it runs the scheduling routine: the
    exception of the routine, or one more session counted. *)
Definition contar (r : result unit * World) (n : nat) : result nat * World :=
  (match fst r with
   | inl e => inl e
   | inr _ => inr (S n)
   end, snd r).

(** ** A running example

    The bot with its default settings on a host three hours behind UTC all
    year, a clock that advances one millisecond per reading and first
    reads 2023-11-14 19:13:20 local time, and the session of the
    specification's scenario: it starts ten hours after the first reading. *)

Definition cfg_ejemplo : Config :=
  {| TELEGRAM_TOKEN := "123:abc";
     TELEGRAM_CHANNEL_ID := "@f1";
     DATABASE_URL := "postgresql://db/f1";
     WEBHOOK_URL := "https://f1.example";
     PORT := 8080;
     API_URL := "https://backend-vuelta-rapida-production.up.railway.app/api/races";
     API_DAYS_AHEAD := 90;
     NOTIFICATION_LEAD_HOURS := 8;
     CHECK_INTERVAL_HOURS := 4;
     F1_CATEGORY_ID := "f1" |}.

(** The host of the example.  Its [fromtimestamp] is given for the integer
    milliseconds of the years 1970 to 2242, where the quotient by 1000 is a
    double that is exact to the microsecond; the example answers
    [ValueError] to anything else and stays inside that range. *)
Definition rt_ejemplo : Runtime :=
  {| clock := fun n => 1699989200000000 + Z.of_nat n * 1000;
     fromtimestamp := fun q =>
       match q with
       | int_div_1000 z =>
           if Z.leb 0 z && Z.ltb z 8589934592000
           then inr (z * 1000 - 10800000000)
           else inl ValueError
       | float_div_1000 _ => inl ValueError
       end;
     timestamp := fun _ => inr tt;
     py_repr := fun _ => "[]" |}.

Definition mundo_vacio : World := {| jobs := ∅; tick := 0 |}.

Definition items_s1 : list (string * pyval) :=
  [("id", PStr "s1"); ("name", PStr "Carrera"); ("startAt", PInt 1700036000000)].

Definition evento_ejemplo : pyval := PStr "GP de Las Vegas".

(** The environment of the example, with the mandatory variables only; the
    configurations that result when [NOTIFICATION_LEAD_HOURS=-1],
    [NOTIFICATION_LEAD_HOURS=100000000] or [API_DAYS_AHEAD=4000000] is added
    to it; and a session that started one second before the first reading
    of the clock. *)

Definition environ_ejemplo : gmap string string :=
  <["TELEGRAM_TOKEN" := "123:abc"]>
  (<["TELEGRAM_CHANNEL_ID" := "@f1"]>
  (<["DATABASE_URL" := "postgresql://db/f1"]>
  (<["WEBHOOK_URL" := "https://f1.example"]> ∅))).

Definition cfg_adelantado : Config :=
  {| TELEGRAM_TOKEN := "123:abc";
     TELEGRAM_CHANNEL_ID := "@f1";
     DATABASE_URL := "postgresql://db/f1";
     WEBHOOK_URL := "https://f1.example";
     PORT := 8080;
     API_URL := "https://backend-vuelta-rapida-production.up.railway.app/api/races";
     API_DAYS_AHEAD := 90;
     NOTIFICATION_LEAD_HOURS := -1;
     CHECK_INTERVAL_HOURS := 4;
     F1_CATEGORY_ID := "f1" |}.

Definition cfg_lejano : Config :=
  {| TELEGRAM_TOKEN := "123:abc";
     TELEGRAM_CHANNEL_ID := "@f1";
     DATABASE_URL := "postgresql://db/f1";
     WEBHOOK_URL := "https://f1.example";
     PORT := 8080;
     API_URL := "https://backend-vuelta-rapida-production.up.railway.app/api/races";
     API_DAYS_AHEAD := 90;
     NOTIFICATION_LEAD_HOURS := 100000000;
     CHECK_INTERVAL_HOURS := 4;
     F1_CATEGORY_ID := "f1" |}.

Definition cfg_ventana : Config :=
  {| TELEGRAM_TOKEN := "123:abc";
     TELEGRAM_CHANNEL_ID := "@f1";
     DATABASE_URL := "postgresql://db/f1";
     WEBHOOK_URL := "https://f1.example";
     PORT := 8080;
     API_URL := "https://backend-vuelta-rapida-production.up.railway.app/api/races";
     API_DAYS_AHEAD := 4000000;
     NOTIFICATION_LEAD_HOURS := 8;
     CHECK_INTERVAL_HOURS := 4;
     F1_CATEGORY_ID := "f1" |}.

Definition items_s0 : list (string * pyval) :=
  [("id", PStr "s0"); ("name", PStr "Práctica"); ("startAt", PInt 1699999999000)].

(** A payload of one race with three sessions: one that started a second
    ago, the session of the scenario, and one that starts in five hours; and
    the same race with a session whose [startAt] is [null] put first. *)

Definition items_s2 : list (string * pyval) :=
  [("id", PStr "s2"); ("name", PStr "Clasificación"); ("startAt", PInt 1700018000000)].

Definition items_sin_hora : list (string * pyval) :=
  [("id", PStr "s3"); ("name", PStr "Sprint"); ("startAt", PNone)].

Definition carrera_de (sesiones : list pyval) : pyval :=
  PDict [("categoryId", PStr "f1");
         ("completeName", evento_ejemplo);
         ("schedules", PList sesiones)].

Definition respuesta_de (sesiones : list pyval) : http_reply :=
  Reply 200 (Some (PDict [("races", PList [carrera_de sesiones])])).

Definition respuesta_ejemplo : http_reply :=
  respuesta_de [PDict items_s0; PDict items_s1; PDict items_s2].

(** Two malformed records: a session without [id] and one without
    [startAt]. *)

Definition items_sin_id : list (string * pyval) :=
  [("name", PStr "Carrera"); ("startAt", PInt 1700036000000)].

Definition items_sin_startAt : list (string * pyval) :=
  [("id", PStr "s4"); ("name", PStr "Carrera")].

(** A session that starts two milliseconds after the first reading of the
    clock: in the future when the loop looks at it, started when the routine
    does. *)

Definition items_justo : list (string * pyval) :=
  [("id", PStr "s5"); ("name", PStr "Warm up"); ("startAt", PInt 1700000000002)].

(** A store that holds a START notice for the session of the scenario,
    written by another hand than this program's. *)

Definition aviso_guardado : Job :=
  {| job_id := "s1_channel_start";
     job_name := "Notificación de inicio para Carrera";
     run_date := 1700025200000000;
     job_data := None |}.

Definition mundo_con_aviso : World :=
  {| jobs := {[ "s1_channel_start" := aviso_guardado ]}; tick := 0 |}.

(** * Properties *)

(** ** Strings *)

Lemma append_cons (c : ascii) (s t : string) :
  String c s +:+ t = String c (s +:+ t).
Proof. reflexivity. Qed.

Lemma list_ascii_of_string_app (s t : string) :
  list_ascii_of_string (s +:+ t) = (list_ascii_of_string s ++ list_ascii_of_string t)%list.
Proof.
  induction s as [|c s IH]; [reflexivity|].
  rewrite append_cons. cbn [list_ascii_of_string]. now rewrite IH.
Qed.

Lemma list_ascii_of_string_inj (s t : string) :
  list_ascii_of_string s = list_ascii_of_string t -> s = t.
Proof.
  intros H. rewrite <- (string_of_list_ascii_of_string s), H.
  apply string_of_list_ascii_of_string.
Qed.

(** A common suffix cancels. *)
Lemma append_inj_l (s t u : string) : s +:+ u = t +:+ u -> s = t.
Proof.
  intros H. apply list_ascii_of_string_inj.
  apply (f_equal list_ascii_of_string) in H.
  rewrite !list_ascii_of_string_app in H.
  eapply app_inv_tail, H.
Qed.

Lemma last_char_app (s t : string) :
  t <> "" -> last_char (s +:+ t) = last_char t.
Proof.
  intros Ht. unfold last_char. rewrite list_ascii_of_string_app.
  destruct t as [|c t]; [congruence|].
  cbn [list_ascii_of_string].
  generalize (list_ascii_of_string t). intros l.
  rewrite last_app. destruct (last (c :: l)) eqn:E; [reflexivity|].
  apply last_None in E. discriminate.
Qed.

Lemma append_ne_empty_r (s t : string) : t <> "" -> s +:+ t <> "".
Proof.
  intros Ht. destruct s as [|c s]; [exact Ht|].
  rewrite append_cons. discriminate.
Qed.

(** ** The scheduling routine in closed form *)

Section Scheduling.

Context (cfg : Config) (rt : Runtime).

(** A call that gives [data] raises at the trigger and leaves the world as
    it was. *)
Lemma add_job_data (j : Job) (replace_existing : bool) (w : World) :
  is_Some (job_data j) -> add_job j replace_existing w = (inl TypeError, w).
Proof.
  intros [d Hd]. unfold add_job, trigger_args. rewrite Hd. reflexivity.
Qed.

Lemma fecha_aviso_previo_inr (inicio previo : datetime) :
  fecha_aviso_previo cfg inicio = inr previo ->
  previo = inicio - NOTIFICATION_LEAD_HOURS cfg * 3600000000.
Proof.
  unfold fecha_aviso_previo, timedelta_hours, timedelta, datetime_sub, datetime_add.
  destruct (Z.leb (-999999999) _ && Z.leb _ 999999999); cbn [rbind]; [|discriminate].
  destruct (Z.leb datetime_min _ && Z.leb _ datetime_max); [|discriminate].
  intros H. injection H as <-. lia.
Qed.

Lemma fechas_inr (startAt : pyval) (inicio previo : datetime) :
  fechas cfg rt startAt = inr (inicio, previo) ->
  exists q : quotient,
    div_1000 startAt = inr q /\
    fromtimestamp rt q = inr inicio /\
    fecha_aviso_previo cfg inicio = inr previo.
Proof.
  unfold fechas. destruct (div_1000 startAt) as [e|q]; [discriminate|].
  cbn [rbind]. destruct (fromtimestamp rt q) as [e|i] eqn:Hi; [discriminate|].
  cbn [rbind]. destruct (fecha_aviso_previo cfg i) as [e|p] eqn:Hp; [discriminate|].
  cbn [rbind]. intros H. injection H as <- <-.
  exists q. split; [reflexivity|]. split; [exact Hi|exact Hp].
Qed.

(** The routine on a dict: the three things it computes from [startAt]
    may raise; then the first guard that holds leads to [add_job], which
    raises on [data]. *)
Lemma programar_dict (d : list (string * pyval)) (nombre_evento : pyval) (w : World) :
  programar_avisos_para_sesion cfg rt (PDict d) nombre_evento w =
  match fechas cfg rt (campo d "startAt" (PInt 0)) with
  | inl e => (inl e, w)
  | inr (inicio, previo) =>
      if Z.gtb previo (clock rt (tick w)) then (inl TypeError, leido w)
      else if Z.gtb inicio (clock rt (S (tick w)))
           then (inl TypeError, leido (leido w))
           else (inr tt, leido (leido w))
  end.
Proof.
  unfold programar_avisos_para_sesion, fechas, bind, lift, py_get, ret, raise.
  destruct (div_1000 (campo d "startAt" (PInt 0))) as [e|q]; [reflexivity|].
  cbn [rbind]. destruct (fromtimestamp rt q) as [e|inicio]; [reflexivity|].
  cbn [rbind]. destruct (fecha_aviso_previo cfg inicio) as [e|previo]; [reflexivity|].
  cbn [rbind]. unfold now. cbn [jobs tick].
  destruct (Z.gtb previo (clock rt (tick w))).
  - rewrite add_job_data by (cbn; eauto). reflexivity.
  - cbn [jobs tick]. destruct (Z.gtb inicio (clock rt (S (tick w)))).
    + rewrite add_job_data by (cbn; eauto). reflexivity.
    + reflexivity.
Qed.

(** The routine never changes the store. *)
Lemma programar_jobs (sesion nombre_evento : pyval) (w : World) :
  jobs (snd (programar_avisos_para_sesion cfg rt sesion nombre_evento w)) = jobs w.
Proof.
  destruct sesion; try reflexivity.
  rewrite programar_dict.
  destruct (fechas cfg rt _) as [e|[inicio previo]]; [reflexivity|].
  destruct (Z.gtb previo _); [reflexivity|].
  destruct (Z.gtb inicio _); reflexivity.
Qed.

(** The two job ids of a session never coincide, whatever the two session
    ids are: one ends in [r], the other in [t]. *)
Lemma id_previo_ne_inicio (a b : pyval) :
  id_aviso_previo cfg rt a <> id_aviso_inicio rt b.
Proof.
  unfold id_aviso_previo, id_aviso_inicio. intros H.
  apply (f_equal last_char) in H.
  rewrite !last_char_app in H by (repeat apply append_ne_empty_r; discriminate).
  vm_compute in H. discriminate.
Qed.

Lemma id_aviso_previo_horas (cfg' : Config) (a : pyval) :
  id_aviso_previo cfg rt a = id_aviso_previo cfg' rt a ->
  NOTIFICATION_LEAD_HOURS cfg = NOTIFICATION_LEAD_HOURS cfg'.
Proof.
  unfold id_aviso_previo. intros H.
  apply (inj (String.append (py_str rt a))) in H.
  apply (inj (String.append "_channel_")) in H.
  apply append_inj_l in H.
  exact (inj pretty _ _ H).
Qed.

End Scheduling.

Lemma trigger_id_kind_ne (cfg : Config) (rt : Runtime) (a b : pyval) :
  trigger_id cfg rt a LEAD <> trigger_id cfg rt b START.
Proof. apply id_previo_ne_inicio. Qed.

Lemma py_str_inj (rt : Runtime) (a b : pyval) :
  mismo_tipo a b = true -> py_str rt a = py_str rt b -> a = b.
Proof.
  destruct a as [|[]|z1| |s1| |], b as [|[]|z2| |s2| |]; cbn [mismo_tipo py_str];
    intros Ht H; try discriminate; try reflexivity.
  - f_equal. exact (inj pretty z1 z2 H).
  - now f_equal.
Qed.

(** ** The Discovery Loop in closed form *)

Section Discovery.

Context (cfg : Config) (rt : Runtime).

(** The body of the inner loop on a dict. *)
Lemma revisar_sesion_dict (nombre_evento : pyval) (d : list (string * pyval))
    (n : nat) (w : World) :
  revisar_sesion cfg rt nombre_evento (PDict d) n w =
  match div_1000 (campo d "startAt" (PInt 0)) with
  | inl e => (inl e, w)
  | inr q =>
      if py_truthy (campo d "id" PNone) then
        match fromtimestamp rt q with
        | inl e => (inl e, w)
        | inr fecha =>
            if Z.gtb fecha (clock rt (tick w)) then
              match jobs w !! id_aviso_inicio rt (campo d "id" PNone) with
              | Some _ => (inr n, leido w)
              | None =>
                  contar (programar_avisos_para_sesion cfg rt (PDict d) nombre_evento
                            (leido w)) n
              end
            else (inr n, leido w)
        end
      else (inr n, w)
  end.
Proof.
  unfold revisar_sesion, bind at 1 2 3 4, lift, py_get, ret, raise.
  destruct (div_1000 (campo d "startAt" (PInt 0))) as [e|q]; [reflexivity|].
  destruct (py_truthy (campo d "id" PNone)); [|reflexivity].
  unfold bind at 1 2. destruct (fromtimestamp rt q) as [e|fecha]; [reflexivity|].
  unfold now. cbn [jobs tick].
  destruct (Z.gtb fecha (clock rt (tick w))); [|reflexivity].
  unfold bind at 1, get_job. cbn [jobs tick].
  destruct (jobs w !! id_aviso_inicio rt (campo d "id" PNone)); [reflexivity|].
  unfold bind, contar, leido.
  destruct (programar_avisos_para_sesion cfg rt (PDict d) nombre_evento _)
    as [[e|[]] w']; reflexivity.
Qed.

Lemma revisar_sesion_raises (nombre_evento : pyval) (d : list (string * pyval))
    (n : nat) (w : World) (e : exn) :
  div_1000 (campo d "startAt" (PInt 0)) = inl e ->
  revisar_sesion cfg rt nombre_evento (PDict d) n w = (inl e, w).
Proof. intros H. now rewrite revisar_sesion_dict, H. Qed.

Lemma contar_jobs (r : result unit * World) (n : nat) :
  jobs (snd (contar r n)) = jobs (snd r).
Proof. reflexivity. Qed.

(** The loop body never changes the store, and counts at most one
    session. *)
Lemma revisar_sesion_jobs (nombre_evento sesion : pyval) (n : nat) (w : World) :
  jobs (snd (revisar_sesion cfg rt nombre_evento sesion n w)) = jobs w.
Proof.
  destruct sesion; try reflexivity.
  rewrite revisar_sesion_dict.
  destruct (div_1000 _) as [e|q]; [reflexivity|].
  destruct (py_truthy _); [|reflexivity].
  destruct (fromtimestamp rt q) as [e|fecha]; [reflexivity|].
  destruct (Z.gtb fecha _); [|reflexivity].
  destruct (jobs w !! _); [reflexivity|].
  rewrite contar_jobs, programar_jobs. reflexivity.
Qed.

Lemma revisar_sesion_cuenta (nombre_evento sesion : pyval) (n n' : nat) (w w' : World) :
  revisar_sesion cfg rt nombre_evento sesion n w = (inr n', w') ->
  (n <= n' <= S n)%nat.
Proof.
  destruct sesion; try discriminate.
  rewrite revisar_sesion_dict.
  destruct (div_1000 _) as [e|q]; [discriminate|].
  destruct (py_truthy _); [|intros H; injection H as <- _; lia].
  destruct (fromtimestamp rt q) as [e|fecha]; [discriminate|].
  destruct (Z.gtb fecha _); [|intros H; injection H as <- _; lia].
  destruct (jobs w !! _); [intros H; injection H as <- _; lia|].
  unfold contar.
  destruct (fst (programar_avisos_para_sesion cfg rt _ _ _)); [discriminate|].
  intros H; injection H as <- _; lia.
Qed.

Lemma revisar_sesiones_jobs (nombre_evento : pyval) (sesiones : list pyval)
    (n : nat) (w : World) :
  jobs (snd (revisar_sesiones cfg rt nombre_evento sesiones n w)) = jobs w.
Proof.
  revert n w. induction sesiones as [|s ss IH]; intros n w; [reflexivity|].
  cbn [revisar_sesiones]. unfold bind.
  pose proof (revisar_sesion_jobs nombre_evento s n w) as Hs.
  destruct (revisar_sesion cfg rt nombre_evento s n w) as [[e|n1] w1];
    cbn [snd] in Hs; [exact Hs|].
  now rewrite IH.
Qed.

Lemma revisar_sesiones_cuenta (nombre_evento : pyval) (sesiones : list pyval)
    (n n' : nat) (w w' : World) :
  revisar_sesiones cfg rt nombre_evento sesiones n w = (inr n', w') ->
  (n' <= n + length sesiones)%nat.
Proof.
  revert n w. induction sesiones as [|s ss IH]; intros n w H.
  - injection H as <- _. cbn. lia.
  - cbn [revisar_sesiones] in H. unfold bind in H.
    destruct (revisar_sesion cfg rt nombre_evento s n w) as [[e|n1] w1] eqn:Hs;
      [discriminate|].
    apply revisar_sesion_cuenta in Hs. apply IH in H. cbn [length]. lia.
Qed.

Lemma revisar_carrera_jobs (carrera : pyval) (n : nat) (w : World) :
  jobs (snd (revisar_carrera cfg rt carrera n w)) = jobs w.
Proof.
  unfold revisar_carrera, bind, lift, ret, raise.
  destruct (py_get carrera "completeName" (PStr "Evento F1")) as [e|ev];
    [reflexivity|].
  destruct (py_get carrera "schedules" (PList [])) as [e|sch]; [reflexivity|].
  destruct (py_iter sch) as [e|ss]; [reflexivity|].
  apply revisar_sesiones_jobs.
Qed.

Lemma revisar_carrera_cuenta (carrera : pyval) (n n' : nat) (w w' : World) :
  revisar_carrera cfg rt carrera n w = (inr n', w') ->
  (n' <= n + length (sesiones_de carrera))%nat.
Proof.
  unfold revisar_carrera, sesiones_de, bind, lift, ret, raise.
  destruct (py_get carrera "completeName" (PStr "Evento F1")) as [e|ev];
    [discriminate|].
  destruct (py_get carrera "schedules" (PList [])) as [e|sch]; [discriminate|].
  cbn [rbind]. destruct (py_iter sch) as [e|ss]; [discriminate|].
  apply revisar_sesiones_cuenta.
Qed.

Lemma revisar_carreras_jobs (carreras : list pyval) (n : nat) (w : World) :
  jobs (snd (revisar_carreras cfg rt carreras n w)) = jobs w.
Proof.
  revert n w. induction carreras as [|c cs IH]; intros n w; [reflexivity|].
  cbn [revisar_carreras]. unfold bind.
  pose proof (revisar_carrera_jobs c n w) as Hc.
  destruct (revisar_carrera cfg rt c n w) as [[e|n1] w1];
    cbn [snd] in Hc; [exact Hc|].
  now rewrite IH.
Qed.

Lemma revisar_carreras_cuenta (carreras : list pyval) (n n' : nat) (w w' : World) :
  revisar_carreras cfg rt carreras n w = (inr n', w') ->
  (n' <= n + length (flat_map sesiones_de carreras))%nat.
Proof.
  revert n w. induction carreras as [|c cs IH]; intros n w H.
  - injection H as <- _. cbn. lia.
  - cbn [revisar_carreras] in H. unfold bind in H.
    destruct (revisar_carrera cfg rt c n w) as [[e|n1] w1] eqn:Hc; [discriminate|].
    apply revisar_carrera_cuenta in Hc. apply IH in H.
    cbn [flat_map]. rewrite length_app. lia.
Qed.

(** The fetch: the clock is read, the window is computed, and the answer
    is looked at. *)
Lemma obtener_carreras_f1_eq (respuesta : http_reply) (w : World) :
  obtener_carreras_f1 cfg rt respuesta w =
  (match ventana cfg rt (clock rt (tick w)) with
   | inl e => inl e
   | inr _ =>
       match pedir_carreras cfg respuesta with
       | inr carreras => inr carreras
       | inl (RequestException _) => inr []
       | inl e => inl e
       end
   end, leido w).
Proof.
  unfold obtener_carreras_f1, bind, now, lift, ret, raise, leido.
  destruct (ventana cfg rt (clock rt (tick w))) as [e|[]]; [reflexivity|].
  destruct (pedir_carreras cfg respuesta) as [[]|]; reflexivity.
Qed.

Lemma fetch_failed_pedir (respuesta : http_reply) :
  fetch_failed respuesta = true ->
  exists e : request_error, pedir_carreras cfg respuesta = inl (RequestException e).
Proof.
  destruct respuesta as [e|status body]; cbn [fetch_failed pedir_carreras].
  - eauto.
  - destruct (Z.leb 400 status && Z.ltb status 600); [eauto|].
    destruct body; [discriminate|eauto].
Qed.

(** A pass in closed form. *)
Lemma check_for_races_eq (respuesta : http_reply) (w : World) :
  check_for_races cfg rt respuesta w =
  match fst (obtener_carreras_f1 cfg rt respuesta w) with
  | inl e => (inl e, leido w)
  | inr [] => (inr NoRaces, leido w)
  | inr (c :: cs) =>
      (match fst (revisar_carreras cfg rt (c :: cs) 0%nat (leido w)) with
       | inl e => inl e
       | inr n => inr (NewSessions n)
       end,
       snd (revisar_carreras cfg rt (c :: cs) 0%nat (leido w)))
  end.
Proof.
  unfold check_for_races, bind. rewrite obtener_carreras_f1_eq. cbn [fst].
  destruct (match ventana cfg rt (clock rt (tick w)) with
            | inl e => inl e
            | inr _ => _
            end) as [e|[|c cs]]; try reflexivity.
  destruct (revisar_carreras cfg rt (c :: cs) 0%nat (leido w)) as [[e|n] w1];
    reflexivity.
Qed.

(** A pass never changes the store, nor does any number of passes. *)
Lemma check_for_races_jobs (respuesta : http_reply) (w : World) :
  jobs (snd (check_for_races cfg rt respuesta w)) = jobs w.
Proof.
  rewrite check_for_races_eq.
  destruct (fst (obtener_carreras_f1 cfg rt respuesta w)) as [e|[|c cs]];
    try reflexivity.
  cbn [snd]. now rewrite revisar_carreras_jobs.
Qed.

Lemma run_repeating_jobs (respuestas : list http_reply) (w : World) :
  jobs (run_repeating cfg rt respuestas w) = jobs w.
Proof.
  revert w. induction respuestas as [|r rs IH]; intros w; [reflexivity|].
  unfold run_repeating. cbn [fold_left].
  fold (run_repeating cfg rt rs (snd (check_for_races cfg rt r w))).
  now rewrite IH, check_for_races_jobs.
Qed.

(** The filter keeps the races of the category, in their order, when every
    race has the method [get]. *)
Lemma filtrar_categoria_filter (carreras filtradas : list pyval) :
  filtrar_categoria cfg carreras = inr filtradas ->
  filtradas = List.filter (es_de_categoria cfg) carreras.
Proof.
  revert filtradas. induction carreras as [|c cs IH]; intros l H.
  - injection H as <-. reflexivity.
  - cbn [filtrar_categoria] in H. cbn [List.filter]. unfold es_de_categoria.
    destruct (py_get c "categoryId" PNone) as [e|cat]; [discriminate|].
    cbn [rbind] in H.
    destruct (filtrar_categoria cfg cs) as [e|l']; [discriminate|].
    cbn [rbind] in H. injection H as <-. now rewrite (IH l' eq_refl).
Qed.

Lemma carreras_recibidas_categoria (respuesta : http_reply) (carrera : pyval) :
  In carrera (carreras_recibidas cfg respuesta) ->
  es_de_categoria cfg carrera = true.
Proof.
  unfold carreras_recibidas.
  destruct (pedir_carreras cfg respuesta) as [e|l] eqn:Hp; [intros []|].
  destruct respuesta as [e|status body]; [discriminate|].
  cbn [pedir_carreras] in Hp.
  destruct (Z.leb 400 status && Z.ltb status 600); [discriminate|].
  destruct body as [datos|]; [|discriminate].
  destruct (py_get datos "races" (PList [])) as [e|cs]; [discriminate|].
  cbn [rbind] in Hp. destruct (py_iter cs) as [e|all]; [discriminate|].
  cbn [rbind] in Hp. apply filtrar_categoria_filter in Hp. subst l.
  intros Hin. now apply filter_In in Hin.
Qed.

Lemma es_de_categoria_true (carrera : pyval) :
  es_de_categoria cfg carrera = true ->
  exists dc : list (string * pyval),
    carrera = PDict dc /\ campo dc "categoryId" PNone = PStr (F1_CATEGORY_ID cfg).
Proof.
  unfold es_de_categoria.
  destruct carrera as [| | | | | |dc]; try discriminate. cbn [py_get].
  destruct (campo dc "categoryId" PNone) as [| | | |s| |] eqn:Hc; try discriminate.
  cbn [py_eq_str]. intros Heq. apply String.eqb_eq in Heq. subst s. eauto.
Qed.

Lemma filtrar_categoria_dicts (carreras : list pyval) :
  forallb es_dict carreras = true ->
  filtrar_categoria cfg carreras = inr (List.filter (es_de_categoria cfg) carreras).
Proof.
  induction carreras as [|c cs IH]; [reflexivity|].
  cbn [forallb]. intros H. apply andb_true_iff in H as [Hc Hcs].
  destruct c as [| | | | | |dc]; try discriminate.
  cbn [filtrar_categoria List.filter py_get rbind]. rewrite (IH Hcs).
  cbn [rbind]. unfold es_de_categoria. cbn [py_get]. reflexivity.
Qed.

End Discovery.

(** The clock of the example does not run backwards. *)
Lemma rt_ejemplo_monotone : monotone_clock (clock rt_ejemplo).
Proof. intros i j Hij. cbn [clock rt_ejemplo]. lia. Qed.

(** ** Properties of [programar_avisos_para_sesion] *)

(** C3.  Lead-time correctness, on the code: for a session whose start has
    the local date [inicio], the routine computes the date of the advance
    notice, [inicio] minus the lead hours, and asks [add_job] for a job to
    run at that date and for a job to run at [inicio]; but the call that it
    makes first raises [TypeError], because [add_job] hands [data] to the
    constructor of the trigger, so the routine ends there and no job with
    either date is stored: the store is as it was. *)
Theorem lead_time_call_raises (cfg : Config) (rt : Runtime)
    (d : list (string * pyval)) (nombre_evento : pyval) (w : World)
    (inicio previo : datetime) :
  fechas cfg rt (campo d "startAt" (PInt 0)) = inr (inicio, previo) ->
  previo = inicio - NOTIFICATION_LEAD_HOURS cfg * 3600000000 /\
  run_date (job_aviso_previo cfg rt (campo d "id" PNone)
              (campo d "name" (PStr "Sesión")) nombre_evento inicio) = previo /\
  run_date (job_aviso_inicio rt (campo d "id" PNone)
              (campo d "name" (PStr "Sesión")) nombre_evento inicio) = inicio /\
  (clock rt (tick w) < previo ->
   programar_avisos_para_sesion cfg rt (PDict d) nombre_evento w
   = (inl TypeError, leido w)) /\
  (previo <= clock rt (tick w) ->
   clock rt (S (tick w)) < inicio ->
   programar_avisos_para_sesion cfg rt (PDict d) nombre_evento w
   = (inl TypeError, leido (leido w))) /\
  (forall tid : string,
     jobs (snd (programar_avisos_para_sesion cfg rt (PDict d) nombre_evento w)) !! tid
     = jobs w !! tid).
Proof.
  intros Hf.
  destruct (fechas_inr cfg rt _ _ _ Hf) as (q & _ & _ & Hp).
  apply fecha_aviso_previo_inr in Hp.
  split; [exact Hp|]. split; [cbn [run_date job_aviso_previo]; lia|].
  split; [reflexivity|].
  rewrite programar_dict, Hf. split; [|split].
  - intros Hlt. destruct (Z.gtb_spec previo (clock rt (tick w))); [reflexivity|lia].
  - intros Hle Hlt.
    destruct (Z.gtb_spec previo (clock rt (tick w))); [lia|].
    destruct (Z.gtb_spec inicio (clock rt (S (tick w)))); [reflexivity|lia].
  - intros tid.
    destruct (Z.gtb previo _); [reflexivity|].
    destruct (Z.gtb inicio _); reflexivity.
Qed.

(** The session of the scenario, ten hours ahead with eight lead hours:
    the call for the advance notice, due in two hours, raises, and nothing
    is stored under either id. *)
Lemma lead_time_call_raises_witness :
  fechas cfg_ejemplo rt_ejemplo (campo items_s1 "startAt" (PInt 0))
    = inr (clock rt_ejemplo 0 + 10 * 3600000000, clock rt_ejemplo 0 + 2 * 3600000000) /\
  programar_avisos_para_sesion cfg_ejemplo rt_ejemplo (PDict items_s1) evento_ejemplo
    mundo_vacio = (inl TypeError, leido mundo_vacio) /\
  jobs (snd (programar_avisos_para_sesion cfg_ejemplo rt_ejemplo (PDict items_s1)
               evento_ejemplo mundo_vacio)) !! "s1_channel_8hr" = None /\
  jobs (snd (programar_avisos_para_sesion cfg_ejemplo rt_ejemplo (PDict items_s1)
               evento_ejemplo mundo_vacio)) !! "s1_channel_start" = None.
Proof.
  assert (Hf : fechas cfg_ejemplo rt_ejemplo (campo items_s1 "startAt" (PInt 0))
               = inr (clock rt_ejemplo 0 + 10 * 3600000000,
                      clock rt_ejemplo 0 + 2 * 3600000000))
    by (vm_compute; reflexivity).
  split; [exact Hf|].
  destruct (lead_time_call_raises cfg_ejemplo rt_ejemplo items_s1 evento_ejemplo
              mundo_vacio _ _ Hf) as (_ & _ & _ & Hlead & _ & Hstore).
  split; [apply Hlead; vm_compute; reflexivity|].
  split; rewrite Hstore; reflexivity.
Defined.

(** With [NOTIFICATION_LEAD_HOURS=-1], which the configuration block
    accepts, the routine does not skip a session that started one second
    ago: the date of its advance notice, an hour after the start, is in the
    future, the routine goes on to [add_job] and ends in [TypeError].  With
    [NOTIFICATION_LEAD_HOURS=100000000], which the block accepts as well,
    the date of the advance notice is before the year 1 and the routine
    ends in [OverflowError]. *)
Lemma no_past_triggers_counterexample :
  fromtimestamp rt_ejemplo (int_div_1000 1699999999000)
    = inr (clock rt_ejemplo 0 - 1000000) /\
  configurar (<["NOTIFICATION_LEAD_HOURS" := "-1"]> environ_ejemplo)
    = Started cfg_adelantado /\
  fst (programar_avisos_para_sesion cfg_adelantado rt_ejemplo (PDict items_s0)
         evento_ejemplo mundo_vacio) = inl TypeError /\
  configurar (<["NOTIFICATION_LEAD_HOURS" := "100000000"]> environ_ejemplo)
    = Started cfg_lejano /\
  fst (programar_avisos_para_sesion cfg_lejano rt_ejemplo (PDict items_s0)
         evento_ejemplo mundo_vacio) = inl OverflowError.
Proof. repeat split; vm_compute; reflexivity. Qed.

(** C2, as amended.  No past scheduling: a job that a call of the routine
    leaves in the store was there before the call, unchanged, or has a run
    date strictly later than a clock reading taken during the call; and
    when the dates of the session are computed, the routine gets as far as
    [add_job] only for a notice whose date is later than the reading of its
    guard.  In particular, when the lead hours are not negative and the
    date of the advance notice exists, a session whose start is not later
    than the two readings of the call (one that started a second ago, say)
    passes neither guard: the call makes no trigger and returns normally. *)
Theorem no_past_triggers (cfg : Config) (rt : Runtime)
    (d : list (string * pyval)) (nombre_evento : pyval) (w : World) :
  (forall (tid : string) (j : Job),
     jobs (snd (programar_avisos_para_sesion cfg rt (PDict d) nombre_evento w)) !! tid
       = Some j ->
     jobs w !! tid = Some j \/
     exists t : nat,
       (tick w <= t < tick (snd (programar_avisos_para_sesion cfg rt (PDict d)
                                   nombre_evento w)))%nat /\
       clock rt t < run_date j) /\
  (forall inicio previo : datetime,
     fechas cfg rt (campo d "startAt" (PInt 0)) = inr (inicio, previo) ->
     fst (programar_avisos_para_sesion cfg rt (PDict d) nombre_evento w)
       = inl TypeError ->
     clock rt (tick w) < previo \/ clock rt (S (tick w)) < inicio) /\
  (0 <= NOTIFICATION_LEAD_HOURS cfg ->
   forall inicio previo : datetime,
     fechas cfg rt (campo d "startAt" (PInt 0)) = inr (inicio, previo) ->
     inicio <= clock rt (tick w) ->
     inicio <= clock rt (S (tick w)) ->
     programar_avisos_para_sesion cfg rt (PDict d) nombre_evento w
     = (inr tt, leido (leido w))).
Proof.
  split; [|split].
  - intros tid j Hj. left. now rewrite programar_jobs in Hj.
  - intros inicio previo Hf. rewrite programar_dict, Hf.
    destruct (Z.gtb_spec previo (clock rt (tick w))); [auto|].
    destruct (Z.gtb_spec inicio (clock rt (S (tick w)))); [auto|discriminate].
  - intros HL inicio previo Hf H0 H1.
    destruct (fechas_inr cfg rt _ _ _ Hf) as (q & _ & _ & Hp).
    apply fecha_aviso_previo_inr in Hp.
    rewrite programar_dict, Hf.
    destruct (Z.gtb_spec previo (clock rt (tick w))); [lia|].
    destruct (Z.gtb_spec inicio (clock rt (S (tick w)))); [lia|reflexivity].
Qed.

Lemma no_past_triggers_witness :
  0 <= NOTIFICATION_LEAD_HOURS cfg_ejemplo /\
  fechas cfg_ejemplo rt_ejemplo (campo items_s0 "startAt" (PInt 0))
    = inr (clock rt_ejemplo 0 - 1000000, clock rt_ejemplo 0 - 1000000 - 8 * 3600000000) /\
  programar_avisos_para_sesion cfg_ejemplo rt_ejemplo (PDict items_s0) evento_ejemplo
    mundo_vacio = (inr tt, leido (leido mundo_vacio)).
Proof.
  assert (HL : 0 <= NOTIFICATION_LEAD_HOURS cfg_ejemplo) by (vm_compute; discriminate).
  assert (Hf : fechas cfg_ejemplo rt_ejemplo (campo items_s0 "startAt" (PInt 0))
               = inr (clock rt_ejemplo 0 - 1000000,
                      clock rt_ejemplo 0 - 1000000 - 8 * 3600000000))
    by (vm_compute; reflexivity).
  split; [exact HL|]. split; [exact Hf|].
  apply (proj2 (proj2 (no_past_triggers cfg_ejemplo rt_ejemplo items_s0 evento_ejemplo
                         mundo_vacio)) HL _ _ Hf);
    vm_compute; discriminate.
Defined.

(** C1.  Idempotent scheduling, on the code: the routine never changes the
    store, so two calls for a session leave it as it was before the first;
    and a call at which the date of a notice is later than the reading of
    its guard raises [TypeError] at [add_job].  A session with a notice in
    the future therefore has no stored trigger after one call or after two,
    where one trigger per kind was to be stored. *)
Theorem scheduling_twice_stores_nothing (cfg : Config) (rt : Runtime)
    (d : list (string * pyval)) (nombre_evento : pyval) (w : World) :
  let first := programar_avisos_para_sesion cfg rt (PDict d) nombre_evento w in
  let second := programar_avisos_para_sesion cfg rt (PDict d) nombre_evento (snd first) in
  jobs (snd first) = jobs w /\
  jobs (snd second) = jobs w /\
  (forall (v : World) (inicio previo : datetime),
     fechas cfg rt (campo d "startAt" (PInt 0)) = inr (inicio, previo) ->
     clock rt (tick v) < previo \/ clock rt (S (tick v)) < inicio ->
     fst (programar_avisos_para_sesion cfg rt (PDict d) nombre_evento v)
     = inl TypeError) /\
  (forall k : kind,
     jobs w !! trigger_id cfg rt (campo d "id" PNone) k = None ->
     jobs (snd first) !! trigger_id cfg rt (campo d "id" PNone) k = None /\
     jobs (snd second) !! trigger_id cfg rt (campo d "id" PNone) k = None).
Proof.
  intros first second.
  assert (H1 : jobs (snd first) = jobs w) by apply programar_jobs.
  assert (H2 : jobs (snd second) = jobs w)
    by (subst second; now rewrite programar_jobs).
  split; [exact H1|]. split; [exact H2|]. split.
  - intros v inicio previo Hf Hg. rewrite programar_dict, Hf.
    destruct (Z.gtb_spec previo (clock rt (tick v))); [reflexivity|].
    destruct (Z.gtb_spec inicio (clock rt (S (tick v)))); [reflexivity|lia].
  - intros k Hk. now rewrite H1, H2.
Qed.

Lemma scheduling_twice_stores_nothing_witness :
  fst (programar_avisos_para_sesion cfg_ejemplo rt_ejemplo (PDict items_s1)
         evento_ejemplo mundo_vacio) = inl TypeError /\
  fst (programar_avisos_para_sesion cfg_ejemplo rt_ejemplo (PDict items_s1)
         evento_ejemplo
         (snd (programar_avisos_para_sesion cfg_ejemplo rt_ejemplo (PDict items_s1)
                 evento_ejemplo mundo_vacio))) = inl TypeError /\
  jobs (snd (programar_avisos_para_sesion cfg_ejemplo rt_ejemplo (PDict items_s1)
               evento_ejemplo
               (snd (programar_avisos_para_sesion cfg_ejemplo rt_ejemplo
                       (PDict items_s1) evento_ejemplo mundo_vacio)))) = ∅.
Proof.
  destruct (scheduling_twice_stores_nothing cfg_ejemplo rt_ejemplo items_s1
              evento_ejemplo mundo_vacio) as (_ & Hjobs & Hraise & _).
  assert (Hf : fechas cfg_ejemplo rt_ejemplo (campo items_s1 "startAt" (PInt 0))
               = inr (clock rt_ejemplo 0 + 10 * 3600000000,
                      clock rt_ejemplo 0 + 2 * 3600000000))
    by (vm_compute; reflexivity).
  split; [apply (Hraise _ _ _ Hf); left; vm_compute; reflexivity|].
  split; [apply (Hraise _ _ _ Hf); left; vm_compute; reflexivity|].
  exact Hjobs.
Defined.

(** C5.  The payload, on the code: the routine builds the two messages
    from the session name, the event name, the lead hours and the formatted
    local start, and gives each to [add_job] as [data]; that call raises
    [TypeError], so the message is never stored with a trigger: every job
    of the store after the call was there before it.  The callback for its
    part sends the message it finds in [context.job.data] as it is. *)
Theorem payload_never_stored (cfg : Config) (rt : Runtime)
    (d : list (string * pyval)) (nombre_evento : pyval) (w : World)
    (inicio previo : datetime) :
  fechas cfg rt (campo d "startAt" (PInt 0)) = inr (inicio, previo) ->
  job_data (job_aviso_previo cfg rt (campo d "id" PNone)
              (campo d "name" (PStr "Sesión")) nombre_evento inicio)
  = Some [("mensaje",
           "🏎️ *¡Atención!* La sesión **" +:+ py_str rt (campo d "name" (PStr "Sesión")) +:+
           "** de **" +:+ py_str rt nombre_evento +:+ "** " +:+
           "comienza en " +:+ pretty (NOTIFICATION_LEAD_HOURS cfg) +:+ " horas (a las " +:+
           strftime inicio +:+ ").")] /\
  job_data (job_aviso_inicio rt (campo d "id" PNone)
              (campo d "name" (PStr "Sesión")) nombre_evento inicio)
  = Some [("mensaje",
           "🟢 *¡Arrancó!* La sesión **" +:+ py_str rt (campo d "name" (PStr "Sesión")) +:+
           "** de **" +:+ py_str rt nombre_evento +:+ "** ha comenzado.")] /\
  (clock rt (tick w) < previo \/ clock rt (S (tick w)) < inicio ->
   fst (programar_avisos_para_sesion cfg rt (PDict d) nombre_evento w) = inl TypeError) /\
  (forall (tid : string) (j : Job),
     jobs (snd (programar_avisos_para_sesion cfg rt (PDict d) nombre_evento w)) !! tid
       = Some j ->
     jobs w !! tid = Some j) /\
  (forall (cfg' : Config) (mensaje : pyval),
     enviar_notificacion cfg' (PDict [("mensaje", mensaje)])
     = inr {| chat_id := TELEGRAM_CHANNEL_ID cfg';
              text := mensaje;
              parse_mode := "Markdown" |}).
Proof.
  intros Hf. split; [reflexivity|]. split; [reflexivity|]. split; [|split].
  - intros Hg. rewrite programar_dict, Hf.
    destruct (Z.gtb_spec previo (clock rt (tick w))); [reflexivity|].
    destruct (Z.gtb_spec inicio (clock rt (S (tick w)))); [reflexivity|lia].
  - intros tid j Hj. now rewrite programar_jobs in Hj.
  - reflexivity.
Qed.

Lemma payload_never_stored_witness :
  job_data (job_aviso_previo cfg_ejemplo rt_ejemplo (PStr "s1") (PStr "Carrera")
              evento_ejemplo (clock rt_ejemplo 0 + 10 * 3600000000))
  = Some [("mensaje",
           "🏎️ *¡Atención!* La sesión **Carrera** de **GP de Las Vegas** comienza en 8 horas (a las 05:13 hs del 15/11).")] /\
  job_data (job_aviso_inicio rt_ejemplo (PStr "s1") (PStr "Carrera")
              evento_ejemplo (clock rt_ejemplo 0 + 10 * 3600000000))
  = Some [("mensaje",
           "🟢 *¡Arrancó!* La sesión **Carrera** de **GP de Las Vegas** ha comenzado.")] /\
  fst (programar_avisos_para_sesion cfg_ejemplo rt_ejemplo (PDict items_s1)
         evento_ejemplo mundo_vacio) = inl TypeError /\
  jobs (snd (programar_avisos_para_sesion cfg_ejemplo rt_ejemplo (PDict items_s1)
               evento_ejemplo mundo_vacio)) = ∅.
Proof.
  assert (Hf : fechas cfg_ejemplo rt_ejemplo (campo items_s1 "startAt" (PInt 0))
               = inr (clock rt_ejemplo 0 + 10 * 3600000000,
                      clock rt_ejemplo 0 + 2 * 3600000000))
    by (vm_compute; reflexivity).
  destruct (payload_never_stored cfg_ejemplo rt_ejemplo items_s1 evento_ejemplo
              mundo_vacio _ _ Hf) as (Hp & Hi & Hraise & _ & _).
  split; [refine (eq_trans Hp _); vm_compute; reflexivity|].
  split; [refine (eq_trans Hi _); vm_compute; reflexivity|].
  split; [apply Hraise; left; vm_compute; reflexivity|].
  vm_compute. reflexivity.
Defined.

(** C6.  Trigger ids: the id that the routine gives to [add_job] is
    [trigger_id] of the session id and of the kind; for a session id that
    is a string it is that string followed by [_channel_], the lead hours
    and [hr], or by [_channel_start]; and [trigger_id] is injective on
    string ids, as on any session ids that are scalars of one type: equal
    trigger ids come from the same session id and the same kind. *)
Theorem trigger_id_deterministic_injective (cfg : Config) (rt : Runtime) :
  (forall (sesion_id nombre_sesion nombre_evento : pyval) (inicio : datetime),
     job_id (job_aviso_previo cfg rt sesion_id nombre_sesion nombre_evento inicio)
       = trigger_id cfg rt sesion_id LEAD /\
     job_id (job_aviso_inicio rt sesion_id nombre_sesion nombre_evento inicio)
       = trigger_id cfg rt sesion_id START) /\
  (forall s : string,
     trigger_id cfg rt (PStr s) LEAD
       = s +:+ "_channel_" +:+ pretty (NOTIFICATION_LEAD_HOURS cfg) +:+ "hr" /\
     trigger_id cfg rt (PStr s) START = s +:+ "_channel_start") /\
  (forall (s1 s2 : string) (k1 k2 : kind),
     trigger_id cfg rt (PStr s1) k1 = trigger_id cfg rt (PStr s2) k2 ->
     s1 = s2 /\ k1 = k2) /\
  (forall (a b : pyval) (k1 k2 : kind),
     mismo_tipo a b = true ->
     trigger_id cfg rt a k1 = trigger_id cfg rt b k2 ->
     a = b /\ k1 = k2).
Proof.
  assert (Hinj : forall (a b : pyval) (k1 k2 : kind),
            mismo_tipo a b = true ->
            trigger_id cfg rt a k1 = trigger_id cfg rt b k2 ->
            a = b /\ k1 = k2).
  { intros a b k1 k2 Ht H. destruct k1, k2.
    - split; [|reflexivity]. cbn [trigger_id] in H.
      unfold id_aviso_previo in H. apply append_inj_l in H.
      exact (py_str_inj rt a b Ht H).
    - now apply trigger_id_kind_ne in H.
    - symmetry in H. now apply trigger_id_kind_ne in H.
    - split; [|reflexivity]. cbn [trigger_id] in H.
      unfold id_aviso_inicio in H. apply append_inj_l in H.
      exact (py_str_inj rt a b Ht H). }
  split; [intros; split; reflexivity|].
  split; [intros; split; reflexivity|].
  split; [|exact Hinj].
  intros s1 s2 k1 k2 H.
  destruct (Hinj (PStr s1) (PStr s2) k1 k2 eq_refl H) as [Hs Hk].
  split; [congruence|exact Hk].
Qed.

Lemma trigger_id_witness :
  trigger_id cfg_ejemplo rt_ejemplo (PStr "s1") LEAD = "s1_channel_8hr" /\
  trigger_id cfg_ejemplo rt_ejemplo (PStr "s1") START = "s1_channel_start" /\
  ("s1" = "s1" /\ LEAD = LEAD).
Proof.
  split; [reflexivity|]. split; [reflexivity|].
  apply (proj1 (proj2 (proj2 (trigger_id_deterministic_injective cfg_ejemplo rt_ejemplo)))
           "s1" "s1" LEAD LEAD eq_refl).
Defined.

(** ** The configuration block *)

(** With every mandatory variable set and [PORT=abc], the block ends in an
    uncaught [ValueError]: startup does not proceed. *)
Lemma startup_counterexample :
  (forall v : string, In v mandatory_variables ->
     is_Some ((<["PORT" := "abc"]> environ_ejemplo) !! v)) /\
  configurar (<["PORT" := "abc"]> environ_ejemplo) = Uncaught ValueError.
Proof.
  split; [|vm_compute; reflexivity].
  intros v Hv. cbn [In mandatory_variables] in Hv.
  destruct Hv as [<-|[<-|[<-|[<-|[]]]]]; vm_compute; eauto.
Qed.

Lemma getenv_int_ok (environ : gmap string string) (k : string) (default : Z) :
  (forall s : string, environ !! k = Some s -> exists z : Z, py_int s = inr z) ->
  exists z : Z, getenv_int environ k default = inr z.
Proof.
  intros H. unfold getenv_int. destruct (environ !! k) as [s|]; eauto.
Qed.

(** C9, as amended.  When a mandatory variable is absent, the block ends
    with the message that names an absent mandatory variable, followed by
    [exit()]; when all four are present and every integer variable that is
    set holds a valid integer, the block completes with a configuration that
    carries the four values. *)
Theorem startup_configuration (environ : gmap string string) :
  ((exists v : string, In v mandatory_variables /\ environ !! v = None) ->
   exists v : string,
     In v mandatory_variables /\ environ !! v = None /\
     configurar environ = ExitMissing v) /\
  ((forall v : string, In v mandatory_variables -> is_Some (environ !! v)) ->
   (forall v s : string, In v integer_variables -> environ !! v = Some s ->
      exists z : Z, py_int s = inr z) ->
   exists c : Config,
     configurar environ = Started c /\
     environ !! "TELEGRAM_TOKEN" = Some (TELEGRAM_TOKEN c) /\
     environ !! "TELEGRAM_CHANNEL_ID" = Some (TELEGRAM_CHANNEL_ID c) /\
     environ !! "DATABASE_URL" = Some (DATABASE_URL c) /\
     environ !! "WEBHOOK_URL" = Some (WEBHOOK_URL c)).
Proof.
  split.
  - intros (v & Hin & Hv). unfold configurar, leer_configuracion, environ_item.
    destruct (environ !! "TELEGRAM_TOKEN") eqn:H1; cbn [rbind];
      [|exists "TELEGRAM_TOKEN"; cbn; auto].
    destruct (environ !! "TELEGRAM_CHANNEL_ID") eqn:H2; cbn [rbind];
      [|exists "TELEGRAM_CHANNEL_ID"; cbn; auto].
    destruct (environ !! "DATABASE_URL") eqn:H3; cbn [rbind];
      [|exists "DATABASE_URL"; cbn; auto].
    destruct (environ !! "WEBHOOK_URL") eqn:H4; cbn [rbind];
      [|exists "WEBHOOK_URL"; cbn; auto 6].
    cbn [In mandatory_variables] in Hin.
    destruct Hin as [<-|[<-|[<-|[<-|[]]]]]; congruence.
  - intros Hall Hint. unfold configurar, leer_configuracion, environ_item.
    destruct (Hall "TELEGRAM_TOKEN") as [x1 ->]; [cbn; auto|].
    destruct (Hall "TELEGRAM_CHANNEL_ID") as [x2 ->]; [cbn; auto|].
    destruct (Hall "DATABASE_URL") as [x3 ->]; [cbn; auto|].
    destruct (Hall "WEBHOOK_URL") as [x4 ->]; [cbn; auto 6|].
    cbn [rbind].
    assert (Hport : exists z : Z, py_int (getenv environ "PORT" "8080") = inr z).
    { unfold getenv. destruct (environ !! "PORT") as [s|] eqn:Hp.
      - apply (Hint "PORT" s); [cbn; auto|exact Hp].
      - exists 8080. vm_compute. reflexivity. }
    destruct Hport as [port ->]. cbn [rbind].
    destruct (getenv_int_ok environ "API_DAYS_AHEAD" 90) as [days ->];
      [intros s; apply Hint; cbn; auto|].
    destruct (getenv_int_ok environ "NOTIFICATION_LEAD_HOURS" 8) as [lead ->];
      [intros s; apply Hint; cbn; auto|].
    destruct (getenv_int_ok environ "CHECK_INTERVAL_HOURS" 4) as [interval ->];
      [intros s; apply Hint; cbn; auto 6|].
    cbn [rbind]. eexists. split; [reflexivity|]. cbn. auto.
Qed.

Lemma startup_configuration_witness :
  (forall v : string, In v mandatory_variables -> is_Some (environ_ejemplo !! v)) /\
  (exists c : Config, configurar environ_ejemplo = Started c) /\
  (exists v : string, configurar (delete "DATABASE_URL" environ_ejemplo) = ExitMissing v).
Proof.
  assert (Hall : forall v : string, In v mandatory_variables ->
                   is_Some (environ_ejemplo !! v)).
  { intros v Hv. cbn [In mandatory_variables] in Hv.
    destruct Hv as [<-|[<-|[<-|[<-|[]]]]]; vm_compute; eauto. }
  split; [exact Hall|]. split.
  - destruct (proj2 (startup_configuration environ_ejemplo) Hall) as (c & Hc & _).
    + intros v s Hv Hs. cbn [In integer_variables] in Hv.
      destruct Hv as [<-|[<-|[<-|[<-|[]]]]]; vm_compute in Hs; discriminate.
    + exists c. exact Hc.
  - destruct (proj1 (startup_configuration (delete "DATABASE_URL" environ_ejemplo)))
      as (v & _ & _ & Hv).
    + exists "DATABASE_URL". split; [cbn; auto|]. vm_compute. reflexivity.
    + exists v. exact Hv.
Defined.

(** ** The Discovery Loop *)



(** An answer with status 200 whose body is JSON of another shape, the
    value [null] or an object with [races: null], is not among the failures
    that the function catches: the function raises, and so does the pass.
    And with [API_DAYS_AHEAD=4000000] the end of the window is after the
    year 9999: the function raises before the request, whatever the Event
    Source would answer. *)
Lemma fetch_failure_counterexample :
  fst (obtener_carreras_f1 cfg_ejemplo rt_ejemplo
         (Reply 200 (Some (PDict [("races", PNone)]))) mundo_vacio) = inl TypeError /\
  fst (check_for_races cfg_ejemplo rt_ejemplo
         (Reply 200 (Some (PDict [("races", PNone)]))) mundo_vacio) = inl TypeError /\
  fst (obtener_carreras_f1 cfg_ejemplo rt_ejemplo (Reply 200 (Some PNone))
         mundo_vacio) = inl AttributeError /\
  fst (check_for_races cfg_ejemplo rt_ejemplo (Reply 200 (Some PNone))
         mundo_vacio) = inl AttributeError /\
  fst (obtener_carreras_f1 cfg_ventana rt_ejemplo (RequestFailed Timeout)
         mundo_vacio) = inl OverflowError /\
  fst (check_for_races cfg_ventana rt_ejemplo (RequestFailed Timeout)
         mundo_vacio) = inl OverflowError.
Proof. repeat split; vm_compute; reflexivity. Qed.

(** C7, as amended.  Fetch failures: once the window of the request is
    computed, when the request raises, the status is an error or the body
    is not JSON, which is what the HTTP client reports as
    [RequestException], [obtener_carreras_f1] returns the empty list, which
    is what it returns for an answer without races; the pass then completes
    normally, reports that no races were found and leaves the store as it
    was; and the passes of the following intervals run from that store. *)
Theorem fetch_failure_degrades (cfg : Config) (rt : Runtime)
    (respuesta : http_reply) (w : World) :
  ventana cfg rt (clock rt (tick w)) = inr tt ->
  fetch_failed respuesta = true ->
  obtener_carreras_f1 cfg rt respuesta w = (inr [], leido w) /\
  obtener_carreras_f1 cfg rt respuesta w =
    obtener_carreras_f1 cfg rt (Reply 200 (Some (PDict [("races", PList [])]))) w /\
  check_for_races cfg rt respuesta w = (inr NoRaces, leido w) /\
  jobs (leido w) = jobs w /\
  forall siguientes : list http_reply,
    run_repeating cfg rt (respuesta :: siguientes) w =
    run_repeating cfg rt siguientes (leido w).
Proof.
  intros Hv Hfail.
  destruct (fetch_failed_pedir cfg respuesta Hfail) as [e He].
  assert (Hget : obtener_carreras_f1 cfg rt respuesta w = (inr [], leido w))
    by (rewrite obtener_carreras_f1_eq, Hv, He; reflexivity).
  assert (Hcheck : check_for_races cfg rt respuesta w = (inr NoRaces, leido w))
    by (rewrite check_for_races_eq, Hget; reflexivity).
  split; [exact Hget|].
  split; [rewrite Hget, obtener_carreras_f1_eq, Hv; reflexivity|].
  split; [exact Hcheck|]. split; [reflexivity|].
  intros siguientes. unfold run_repeating. cbn [fold_left].
  now rewrite Hcheck.
Qed.

Lemma fetch_failure_degrades_witness :
  ventana cfg_ejemplo rt_ejemplo (clock rt_ejemplo (tick mundo_vacio)) = inr tt /\
  fetch_failed (Reply 503 None) = true /\
  check_for_races cfg_ejemplo rt_ejemplo (Reply 503 None) mundo_vacio
    = (inr NoRaces, leido mundo_vacio) /\
  run_repeating cfg_ejemplo rt_ejemplo [Reply 503 None; RequestFailed Timeout]
    mundo_vacio = leido (leido mundo_vacio).
Proof.
  assert (Hv : ventana cfg_ejemplo rt_ejemplo (clock rt_ejemplo (tick mundo_vacio))
               = inr tt) by (vm_compute; reflexivity).
  split; [exact Hv|]. split; [reflexivity|].
  destruct (fetch_failure_degrades cfg_ejemplo rt_ejemplo (Reply 503 None)
              mundo_vacio Hv eq_refl) as (_ & _ & Hcheck & _ & Hnext).
  split; [exact Hcheck|].
  rewrite Hnext. vm_compute. reflexivity.
Defined.

(** A payload whose first session has [startAt: null]: the pass raises
    [TypeError] at that session, having read the clock for the fetch only,
    and the session that follows is not looked at, although alone it is:
    the session of the scenario has its dates compared with two more
    readings of the clock, and a session that started a second ago lets
    the pass complete. *)
Lemma error_isolation_counterexample :
  fst (check_for_races cfg_ejemplo rt_ejemplo
         (respuesta_de [PDict items_sin_hora; PDict items_s1]) mundo_vacio)
    = inl TypeError /\
  jobs (snd (check_for_races cfg_ejemplo rt_ejemplo
               (respuesta_de [PDict items_sin_hora; PDict items_s1]) mundo_vacio))
    = ∅ /\
  tick (snd (check_for_races cfg_ejemplo rt_ejemplo
               (respuesta_de [PDict items_sin_hora; PDict items_s1]) mundo_vacio))
    = 1%nat /\
  tick (snd (check_for_races cfg_ejemplo rt_ejemplo
               (respuesta_de [PDict items_s1]) mundo_vacio))
    = 3%nat /\
  fst (check_for_races cfg_ejemplo rt_ejemplo
         (respuesta_de [PDict items_sin_hora; PDict items_s0]) mundo_vacio)
    = inl TypeError /\
  check_for_races cfg_ejemplo rt_ejemplo (respuesta_de [PDict items_s0]) mundo_vacio
    = (inr (NewSessions 0), leido (leido mundo_vacio)).
Proof. repeat split; vm_compute; reflexivity. Qed.

(** C8, as amended.  Sessions are processed in order.  A session that the
    body accepts, whether it is skipped or scheduled, hands over to the
    next one; an exception raised at a session or at a race ends the pass
    there: it is the outcome of the pass, the store is the one the sessions
    before it left, and what follows is not processed.  A session whose
    [startAt] does not divide raises in this way. *)
Theorem error_ends_the_pass (cfg : Config) (rt : Runtime) :
  (forall (nombre_evento : pyval) (d : list (string * pyval)) (n : nat)
          (w : World) (e : exn),
     div_1000 (campo d "startAt" (PInt 0)) = inl e ->
     revisar_sesion cfg rt nombre_evento (PDict d) n w = (inl e, w)) /\
  (forall (nombre_evento : pyval) (antes : list pyval) (sesion : pyval)
          (despues : list pyval) (n n1 : nat) (w w1 : World),
     revisar_sesiones cfg rt nombre_evento antes n w = (inr n1, w1) ->
     match revisar_sesion cfg rt nombre_evento sesion n1 w1 with
     | (inl e, w2) =>
         revisar_sesiones cfg rt nombre_evento (antes ++ sesion :: despues)%list n w
         = (inl e, w2)
     | (inr n2, w2) =>
         revisar_sesiones cfg rt nombre_evento (antes ++ sesion :: despues)%list n w
         = revisar_sesiones cfg rt nombre_evento despues n2 w2
     end) /\
  (forall (antes : list pyval) (carrera : pyval) (despues : list pyval)
          (n n1 : nat) (w w1 : World),
     revisar_carreras cfg rt antes n w = (inr n1, w1) ->
     match revisar_carrera cfg rt carrera n1 w1 with
     | (inl e, w2) =>
         revisar_carreras cfg rt (antes ++ carrera :: despues)%list n w = (inl e, w2)
     | (inr n2, w2) =>
         revisar_carreras cfg rt (antes ++ carrera :: despues)%list n w
         = revisar_carreras cfg rt despues n2 w2
     end) /\
  (forall (respuesta : http_reply) (c : pyval) (cs : list pyval) (w w2 : World)
          (e : exn),
     ventana cfg rt (clock rt (tick w)) = inr tt ->
     pedir_carreras cfg respuesta = inr (c :: cs) ->
     revisar_carreras cfg rt (c :: cs) 0%nat (leido w) = (inl e, w2) ->
     check_for_races cfg rt respuesta w = (inl e, w2)).
Proof.
  split; [|split; [|split]].
  - intros. now apply revisar_sesion_raises.
  - intros nombre_evento antes sesion despues.
    induction antes as [|s ss IH]; intros n n1 w w1 H.
    + injection H as -> ->. cbn [app revisar_sesiones]. unfold bind.
      destruct (revisar_sesion cfg rt nombre_evento sesion n1 w1) as [[e|n2] w2];
        reflexivity.
    + cbn [app revisar_sesiones] in *. unfold bind in *.
      destruct (revisar_sesion cfg rt nombre_evento s n w) as [[e|n'] w'];
        [discriminate|].
      exact (IH _ _ _ _ H).
  - intros antes carrera despues.
    induction antes as [|c cs IH]; intros n n1 w w1 H.
    + injection H as -> ->. cbn [app revisar_carreras]. unfold bind.
      destruct (revisar_carrera cfg rt carrera n1 w1) as [[e|n2] w2]; reflexivity.
    + cbn [app revisar_carreras] in *. unfold bind in *.
      destruct (revisar_carrera cfg rt c n w) as [[e|n'] w']; [discriminate|].
      exact (IH _ _ _ _ H).
  - intros respuesta c cs w w2 e Hv Hp Hr.
    rewrite check_for_races_eq, obtener_carreras_f1_eq, Hv, Hp. cbn [fst].
    rewrite Hr. reflexivity.
Qed.

Lemma error_ends_the_pass_witness :
  div_1000 (campo items_sin_hora "startAt" (PInt 0)) = inl TypeError /\
  revisar_sesiones cfg_ejemplo rt_ejemplo evento_ejemplo
    ([PDict items_s0] ++ PDict items_sin_hora :: [PDict items_s1])%list 0%nat mundo_vacio
  = (inl TypeError,
     snd (revisar_sesion cfg_ejemplo rt_ejemplo evento_ejemplo (PDict items_s0) 0%nat
            mundo_vacio)).
Proof.
  split; [reflexivity|].
  pose proof (proj1 (proj2 (error_ends_the_pass cfg_ejemplo rt_ejemplo))
                evento_ejemplo [PDict items_s0] (PDict items_sin_hora)
                [PDict items_s1] 0%nat 0%nat mundo_vacio
                (snd (revisar_sesion cfg_ejemplo rt_ejemplo evento_ejemplo
                        (PDict items_s0) 0%nat mundo_vacio))) as H.
  rewrite (proj1 (error_ends_the_pass cfg_ejemplo rt_ejemplo) evento_ejemplo
             items_sin_hora 0%nat _ TypeError eq_refl) in H.
  apply H. vm_compute. reflexivity.
Defined.

(** ** Which sessions a pass stores triggers for *)

(** C10.  Records without [id] or [startAt]: for a session record that has
    no [id] the loop body reads no clock, calls nothing and leaves the
    store as it was; for a record that has no [startAt] the start defaults
    to 0 milliseconds, the epoch, and, the epoch being in the past for the
    clock, the body accepts the record, does not run the scheduling routine
    and stores nothing for it, nor does a call of the routine itself.  Over
    a whole pass, every job in the store was there before the pass or sits
    under the trigger id of a received session record that has both an
    [id] and a [startAt]. *)
Theorem sessions_without_id_or_start (cfg : Config) (rt : Runtime)
    (epoch : datetime) :
  fromtimestamp rt (int_div_1000 0) = inr epoch ->
  (forall t : nat, epoch <= clock rt t) ->
  (forall (nombre_evento : pyval) (d : list (string * pyval)) (n : nat) (w : World),
     dict_lookup "id" d = None ->
     snd (revisar_sesion cfg rt nombre_evento (PDict d) n w) = w /\
     forall n' : nat,
       fst (revisar_sesion cfg rt nombre_evento (PDict d) n w) = inr n' -> n' = n) /\
  (forall (nombre_evento : pyval) (d : list (string * pyval)) (n : nat) (w : World),
     dict_lookup "startAt" d = None ->
     div_1000 (campo d "startAt" (PInt 0)) = inr (int_div_1000 0) /\
     fst (revisar_sesion cfg rt nombre_evento (PDict d) n w) = inr n /\
     jobs (snd (revisar_sesion cfg rt nombre_evento (PDict d) n w)) = jobs w /\
     jobs (snd (programar_avisos_para_sesion cfg rt (PDict d) nombre_evento w))
       = jobs w) /\
  (forall (respuesta : http_reply) (w : World) (tid : string) (j : Job),
     jobs (snd (check_for_races cfg rt respuesta w)) !! tid = Some j ->
     jobs w !! tid = Some j \/
     exists sesion : pyval,
       In sesion (sesiones_recibidas cfg respuesta) /\
       trigger_de cfg rt sesion tid).
Proof.
  intros Hepoch Hpast. split; [|split].
  - intros nombre_evento d n w Hid. rewrite revisar_sesion_dict.
    assert (Hc : campo d "id" PNone = PNone) by (unfold campo; now rewrite Hid).
    rewrite Hc. cbn [py_truthy].
    destruct (div_1000 (campo d "startAt" (PInt 0))) as [e|q];
      cbn [fst snd]; (split; [reflexivity|]); intros n' H;
      [discriminate|now injection H as <-].
  - intros nombre_evento d n w Hst.
    assert (Hts : div_1000 (campo d "startAt" (PInt 0)) = inr (int_div_1000 0))
      by (unfold campo; rewrite Hst; reflexivity).
    split; [exact Hts|].
    split; [|split; [apply revisar_sesion_jobs|apply programar_jobs]].
    rewrite revisar_sesion_dict, Hts.
    destruct (py_truthy (campo d "id" PNone)); [|reflexivity].
    rewrite Hepoch.
    destruct (Z.gtb_spec epoch (clock rt (tick w))) as [Hlt|_]; [|reflexivity].
    pose proof (Hpast (tick w)). lia.
  - intros respuesta w tid j Hj. left. now rewrite check_for_races_jobs in Hj.
Qed.

Lemma sessions_without_id_or_start_witness :
  fromtimestamp rt_ejemplo (int_div_1000 0) = inr (-10800000000) /\
  (forall t : nat, -10800000000 <= clock rt_ejemplo t) /\
  dict_lookup "id" items_sin_id = None /\
  revisar_sesion cfg_ejemplo rt_ejemplo evento_ejemplo (PDict items_sin_id)
    0%nat mundo_vacio = (inr 0%nat, mundo_vacio) /\
  dict_lookup "startAt" items_sin_startAt = None /\
  fst (revisar_sesion cfg_ejemplo rt_ejemplo evento_ejemplo
         (PDict items_sin_startAt) 0%nat mundo_vacio) = inr 0%nat /\
  jobs (snd (revisar_sesion cfg_ejemplo rt_ejemplo evento_ejemplo
               (PDict items_sin_startAt) 0%nat mundo_vacio)) = ∅.
Proof.
  assert (Hpast : forall t : nat, -10800000000 <= clock rt_ejemplo t)
    by (intros t; cbn [clock rt_ejemplo]; lia).
  split; [reflexivity|]. split; [exact Hpast|].
  destruct (sessions_without_id_or_start cfg_ejemplo rt_ejemplo (-10800000000)
              eq_refl Hpast) as (Hid & Hst & _).
  split; [reflexivity|].
  split; [vm_compute; reflexivity|].
  split; [reflexivity|].
  destruct (Hst evento_ejemplo items_sin_startAt 0%nat mundo_vacio eq_refl)
    as (_ & Hfst & Hjobs & _).
  split; [exact Hfst|exact Hjobs].
Defined.

(** * Further properties of the pass *)

(** ** What a pass stores *)

(** X1. What a pass stores: a job that is in the store after
    [check_for_races] was there before the pass, unchanged, or is one of the
    two notices of a session record of the answer: the record belongs to a
    race whose [categoryId] is the configured category, it is a dict with a
    true id and a [startAt] that divides, the job is the one the scheduling
    routine builds from the record and from the name of that race, and its
    run date is later than a reading of the clock taken during the pass. *)
Theorem pass_stores_notices_of_received_sessions (cfg : Config) (rt : Runtime)
    (respuesta : http_reply) (w : World) (tid : string) (j : Job) :
  jobs (snd (check_for_races cfg rt respuesta w)) !! tid = Some j ->
  jobs w !! tid = Some j \/
  exists carrera sesion : pyval,
    In carrera (carreras_recibidas cfg respuesta) /\
    es_de_categoria cfg carrera = true /\
    In sesion (sesiones_de carrera) /\
    aviso_de cfg rt (nombre_de carrera) sesion tid j /\
    reciente rt w (snd (check_for_races cfg rt respuesta w)) j.
Proof.
  intros Hj. left. now rewrite check_for_races_jobs in Hj.
Qed.

Lemma pass_stores_notices_witness :
  jobs (snd (check_for_races cfg_ejemplo rt_ejemplo respuesta_ejemplo mundo_con_aviso))
    !! "s1_channel_start" = Some aviso_guardado /\
  jobs mundo_con_aviso !! "s1_channel_start" = Some aviso_guardado.
Proof.
  assert (Hj : jobs (snd (check_for_races cfg_ejemplo rt_ejemplo respuesta_ejemplo
                            mundo_con_aviso)) !! "s1_channel_start"
               = Some aviso_guardado) by (vm_compute; reflexivity).
  split; [exact Hj|].
  destruct (pass_stores_notices_of_received_sessions cfg_ejemplo rt_ejemplo
              respuesta_ejemplo mundo_con_aviso _ _ Hj) as [Hold|_].
  - exact Hold.
  - vm_compute. reflexivity.
Defined.

(** X2. A pass removes nothing and leaves the START notices alone: every
    id stored before [check_for_races] is stored after it, however the pass
    ends, and a job stored under the START id of any session id is still
    there, unchanged. *)
Theorem pass_keeps_stored_jobs (cfg : Config) (rt : Runtime)
    (respuesta : http_reply) (w : World) :
  (forall id : string,
     is_Some (jobs w !! id) ->
     is_Some (jobs (snd (check_for_races cfg rt respuesta w)) !! id)) /\
  (forall (sesion_id : pyval) (j : Job),
     jobs w !! trigger_id cfg rt sesion_id START = Some j ->
     jobs (snd (check_for_races cfg rt respuesta w)) !! trigger_id cfg rt sesion_id START
     = Some j).
Proof.
  rewrite check_for_races_jobs. split; auto.
Qed.

(** X6. The count of a pass: a pass that finds no races leaves the store
    as it was; a pass that reports [n] new sessions has added at most two
    jobs for each of them, [n] is at most the number of sessions received,
    and when [n] is 0 the store is as it was. *)
Theorem pass_count_bounds (cfg : Config) (rt : Runtime)
    (respuesta : http_reply) (w : World) :
  (fst (check_for_races cfg rt respuesta w) = inr NoRaces ->
   jobs (snd (check_for_races cfg rt respuesta w)) = jobs w) /\
  (forall n : nat,
     fst (check_for_races cfg rt respuesta w) = inr (NewSessions n) ->
     (n <= length (sesiones_recibidas cfg respuesta))%nat /\
     (size (jobs (snd (check_for_races cfg rt respuesta w)))
      <= size (jobs w) + 2 * n)%nat /\
     (n = 0%nat -> jobs (snd (check_for_races cfg rt respuesta w)) = jobs w)).
Proof.
  rewrite check_for_races_jobs. split; [reflexivity|].
  intros n Hn. split; [|split; [lia|reflexivity]].
  rewrite check_for_races_eq, obtener_carreras_f1_eq in Hn. cbn [fst] in Hn.
  unfold sesiones_recibidas.
  destruct (ventana cfg rt (clock rt (tick w))) as [e|[]]; [discriminate|].
  destruct (pedir_carreras cfg respuesta) as [e|[|c cs]].
  - destruct e; discriminate.
  - discriminate.
  - cbn [fst] in Hn.
    destruct (revisar_carreras cfg rt (c :: cs) 0%nat (leido w)) as [[e|n'] w']
      eqn:Hr; cbn [fst] in Hn; [discriminate|].
    injection Hn as <-.
    apply revisar_carreras_cuenta in Hr. lia.
Qed.

(** A session that starts two milliseconds after the pass begins is still
    to come when the loop looks at it and has started when the routine
    takes its own readings: the routine returns, and the session is
    counted. *)
Lemma pass_count_bounds_witness :
  fst (check_for_races cfg_ejemplo rt_ejemplo (respuesta_de [PDict items_justo])
         mundo_vacio) = inr (NewSessions 1) /\
  (1 <= length (sesiones_recibidas cfg_ejemplo (respuesta_de [PDict items_justo])))%nat /\
  (size (jobs (snd (check_for_races cfg_ejemplo rt_ejemplo
                      (respuesta_de [PDict items_justo]) mundo_vacio)))
   <= size (jobs mundo_vacio) + 2 * 1)%nat.
Proof.
  assert (H : fst (check_for_races cfg_ejemplo rt_ejemplo
                     (respuesta_de [PDict items_justo]) mundo_vacio)
              = inr (NewSessions 1)) by (vm_compute; reflexivity).
  split; [exact H|].
  destruct (proj2 (pass_count_bounds cfg_ejemplo rt_ejemplo
                     (respuesta_de [PDict items_justo]) mundo_vacio) 1%nat H)
    as (Hn & Hsize & _).
  split; [exact Hn|exact Hsize].
Defined.

(** ** The fetch and the filter *)

(** X7. What the fetch returns: every race that [obtener_carreras_f1]
    returns is a dict whose [categoryId] is the string of the configured
    category; once the window of the request is computed, for an answer
    without error status whose body is an object, the result is the list
    under [races] filtered by that test, in the order of the answer, when
    the list holds dicts, and the empty list when the key [races] is
    missing. *)
Theorem fetch_returns_races_of_category (cfg : Config) (rt : Runtime) :
  (forall (respuesta : http_reply) (w : World) (carreras : list pyval),
     fst (obtener_carreras_f1 cfg rt respuesta w) = inr carreras ->
     forall carrera : pyval,
       In carrera carreras ->
       exists dc : list (string * pyval),
         carrera = PDict dc /\
         campo dc "categoryId" PNone = PStr (F1_CATEGORY_ID cfg)) /\
  (forall (status_code : Z) (d : list (string * pyval)) (todas : list pyval)
          (w : World),
     ventana cfg rt (clock rt (tick w)) = inr tt ->
     Z.leb 400 status_code && Z.ltb status_code 600 = false ->
     dict_lookup "races" d = Some (PList todas) ->
     forallb es_dict todas = true ->
     obtener_carreras_f1 cfg rt (Reply status_code (Some (PDict d))) w =
     (inr (List.filter (es_de_categoria cfg) todas), leido w)) /\
  (forall (status_code : Z) (d : list (string * pyval)) (w : World),
     ventana cfg rt (clock rt (tick w)) = inr tt ->
     Z.leb 400 status_code && Z.ltb status_code 600 = false ->
     dict_lookup "races" d = None ->
     obtener_carreras_f1 cfg rt (Reply status_code (Some (PDict d))) w =
     (inr [], leido w)).
Proof.
  split; [|split].
  - intros respuesta w carreras H carrera Hin.
    apply es_de_categoria_true.
    apply (carreras_recibidas_categoria cfg respuesta).
    rewrite obtener_carreras_f1_eq in H. cbn [fst] in H. unfold carreras_recibidas.
    destruct (ventana cfg rt (clock rt (tick w))) as [e|[]]; [discriminate|].
    destruct (pedir_carreras cfg respuesta) as [e|l].
    + destruct e; try discriminate. injection H as <-. destruct Hin.
    + injection H as <-. exact Hin.
  - intros status_code d todas w Hv Hst Hraces Hdicts.
    rewrite obtener_carreras_f1_eq, Hv. cbn [pedir_carreras py_get]. rewrite Hst.
    unfold campo. rewrite Hraces. cbn [rbind py_iter].
    now rewrite (filtrar_categoria_dicts cfg todas Hdicts).
  - intros status_code d w Hv Hst Hraces.
    rewrite obtener_carreras_f1_eq, Hv. cbn [pedir_carreras py_get]. rewrite Hst.
    unfold campo. rewrite Hraces. reflexivity.
Qed.

Lemma fetch_returns_races_of_category_witness :
  ventana cfg_ejemplo rt_ejemplo (clock rt_ejemplo (tick mundo_vacio)) = inr tt /\
  fst (obtener_carreras_f1 cfg_ejemplo rt_ejemplo
         (Reply 200 (Some (PDict [("races",
            PList [PDict [("categoryId", PStr "motogp")];
                   carrera_de [PDict items_s1];
                   PDict [("name", PStr "sin categoria")]])])))
         mundo_vacio)
  = inr [carrera_de [PDict items_s1]] /\
  obtener_carreras_f1 cfg_ejemplo rt_ejemplo (Reply 200 (Some (PDict []))) mundo_vacio
  = (inr [], leido mundo_vacio).
Proof.
  assert (Hv : ventana cfg_ejemplo rt_ejemplo (clock rt_ejemplo (tick mundo_vacio))
               = inr tt) by (vm_compute; reflexivity).
  split; [exact Hv|].
  destruct (fetch_returns_races_of_category cfg_ejemplo rt_ejemplo)
    as (_ & Hfilter & Hmissing).
  split.
  - rewrite (Hfilter 200
               [("races",
                 PList [PDict [("categoryId", PStr "motogp")];
                        carrera_de [PDict items_s1];
                        PDict [("name", PStr "sin categoria")]])]
               [PDict [("categoryId", PStr "motogp")];
                carrera_de [PDict items_s1];
                PDict [("name", PStr "sin categoria")]]
               mundo_vacio Hv eq_refl eq_refl eq_refl).
    reflexivity.
  - exact (Hmissing 200 [] mundo_vacio Hv eq_refl eq_refl).
Defined.

(** ** Repeated passes *)

(** X8. Later passes add nothing to the first: when the clock does not
    run backwards, after a pass over an answer, any number of further passes
    in which the Event Source gives the same answer or fails leave the store
    as that first pass left it. *)
Theorem later_passes_add_nothing (cfg : Config) (rt : Runtime)
    (respuesta : http_reply) (siguientes : list http_reply) (w : World) :
  monotone_clock (clock rt) ->
  Forall (fun r => r = respuesta \/ fetch_failed r = true) siguientes ->
  jobs (run_repeating cfg rt (respuesta :: siguientes) w)
  = jobs (snd (check_for_races cfg rt respuesta w)).
Proof.
  intros _ _. now rewrite run_repeating_jobs, check_for_races_jobs.
Qed.

Lemma later_passes_add_nothing_witness :
  monotone_clock (clock rt_ejemplo) /\
  jobs (run_repeating cfg_ejemplo rt_ejemplo
          [respuesta_ejemplo; RequestFailed Timeout; respuesta_ejemplo;
           Reply 500 None; respuesta_ejemplo] mundo_con_aviso)
  = jobs (snd (check_for_races cfg_ejemplo rt_ejemplo respuesta_ejemplo
                 mundo_con_aviso)).
Proof.
  split; [exact rt_ejemplo_monotone|].
  apply (later_passes_add_nothing cfg_ejemplo rt_ejemplo respuesta_ejemplo
           [RequestFailed Timeout; respuesta_ejemplo; Reply 500 None;
            respuesta_ejemplo] mundo_con_aviso rt_ejemplo_monotone).
  repeat (constructor; [first [left; reflexivity|right; reflexivity]|]).
  constructor.
Defined.

(** ** More on the configuration block *)

Lemma py_int_error (s : string) (e : exn) : py_int s = inl e -> e = ValueError.
Proof.
  unfold py_int.
  destruct (match strip s with
            | String "+" u => digits 0 false u
            | String "-" u => Z.opp <$> digits 0 false u
            | _ => digits 0 false (strip s)
            end); [|intros H; now injection H as <-].
  destruct (Nat.leb (count_digits (strip s)) 4300); [discriminate|].
  intros H. now injection H as <-.
Qed.

Lemma getenv_int_error (environ : gmap string string) (k : string) (default : Z)
    (e : exn) :
  getenv_int environ k default = inl e -> e = ValueError.
Proof.
  unfold getenv_int. destruct (environ !! k); [apply py_int_error|discriminate].
Qed.

(** X9. The first missing variable is the one reported: the block ends
    with the message for a variable exactly when that variable is the first
    of the four mandatory ones, in the order of the block, that the
    environment does not define, whatever the integer variables hold; when
    none is missing the block completes or ends in an uncaught
    [ValueError], and in nothing else. *)
Theorem startup_reports_first_missing (environ : gmap string string) :
  (forall v : string,
     configurar environ = ExitMissing v <-> primera_ausente environ = Some v) /\
  (primera_ausente environ = None ->
   (exists c : Config, configurar environ = Started c) \/
   configurar environ = Uncaught ValueError).
Proof.
  unfold configurar, leer_configuracion, primera_ausente, environ_item.
  cbn [List.find mandatory_variables].
  destruct (environ !! "TELEGRAM_TOKEN") as [x1|]; cbn [rbind];
    [|split; [intros v; split; intros H; congruence|discriminate]].
  destruct (environ !! "TELEGRAM_CHANNEL_ID") as [x2|]; cbn [rbind];
    [|split; [intros v; split; intros H; congruence|discriminate]].
  destruct (environ !! "DATABASE_URL") as [x3|]; cbn [rbind];
    [|split; [intros v; split; intros H; congruence|discriminate]].
  destruct (environ !! "WEBHOOK_URL") as [x4|]; cbn [rbind];
    [|split; [intros v; split; intros H; congruence|discriminate]].
  destruct (py_int (getenv environ "PORT" "8080")) as [e|port] eqn:H1;
    [apply py_int_error in H1; subst e; split;
       [intros v; split; discriminate|auto]|].
  cbn [rbind].
  destruct (getenv_int environ "API_DAYS_AHEAD" 90) as [e|days] eqn:H2;
    [apply getenv_int_error in H2; subst e; split;
       [intros v; split; discriminate|auto]|].
  cbn [rbind].
  destruct (getenv_int environ "NOTIFICATION_LEAD_HOURS" 8) as [e|lead] eqn:H3;
    [apply getenv_int_error in H3; subst e; split;
       [intros v; split; discriminate|auto]|].
  cbn [rbind].
  destruct (getenv_int environ "CHECK_INTERVAL_HOURS" 4) as [e|interval] eqn:H4;
    [apply getenv_int_error in H4; subst e; split;
       [intros v; split; discriminate|auto]|].
  cbn [rbind]. split; [intros v; split; discriminate|eauto].
Qed.

Lemma startup_reports_first_missing_witness :
  primera_ausente
    (<["PORT" := "abc"]> (delete "WEBHOOK_URL" (delete "TELEGRAM_CHANNEL_ID"
                                                  environ_ejemplo)))
    = Some "TELEGRAM_CHANNEL_ID" /\
  configurar
    (<["PORT" := "abc"]> (delete "WEBHOOK_URL" (delete "TELEGRAM_CHANNEL_ID"
                                                  environ_ejemplo)))
    = ExitMissing "TELEGRAM_CHANNEL_ID".
Proof.
  assert (H : primera_ausente
                (<["PORT" := "abc"]> (delete "WEBHOOK_URL"
                   (delete "TELEGRAM_CHANNEL_ID" environ_ejemplo)))
              = Some "TELEGRAM_CHANNEL_ID") by (vm_compute; reflexivity).
  split; [exact H|].
  exact (proj2 (proj1 (startup_reports_first_missing _) "TELEGRAM_CHANNEL_ID") H).
Defined.

(** ** More on the scheduling routine and on the ids *)

(** X12. The LEAD id carries the lead hours: under two configurations the
    LEAD ids of a session id are equal exactly when the two lead hours are,
    while the START id is the same under every configuration.  So a call of
    the routine under other lead hours leaves the LEAD notice that was
    stored for the session where it is: it is not replaced, and the new
    LEAD notice, if any, is stored beside it. *)
Theorem lead_id_follows_lead_hours (cfg1 cfg2 : Config) (rt : Runtime) :
  (forall sesion_id : pyval,
     (trigger_id cfg1 rt sesion_id LEAD = trigger_id cfg2 rt sesion_id LEAD <->
      NOTIFICATION_LEAD_HOURS cfg1 = NOTIFICATION_LEAD_HOURS cfg2) /\
     trigger_id cfg1 rt sesion_id START = trigger_id cfg2 rt sesion_id START) /\
  (NOTIFICATION_LEAD_HOURS cfg1 <> NOTIFICATION_LEAD_HOURS cfg2 ->
   forall (d : list (string * pyval)) (nombre_evento : pyval) (w : World),
     jobs (snd (programar_avisos_para_sesion cfg2 rt (PDict d) nombre_evento w))
       !! trigger_id cfg1 rt (campo d "id" PNone) LEAD
     = jobs w !! trigger_id cfg1 rt (campo d "id" PNone) LEAD).
Proof.
  split.
  - intros sesion_id. split; [|reflexivity]. cbn [trigger_id]. split.
    + apply id_aviso_previo_horas.
    + intros H. unfold id_aviso_previo. rewrite H. reflexivity.
  - intros _ d nombre_evento w. now rewrite programar_jobs.
Qed.

Lemma lead_id_follows_lead_hours_witness :
  NOTIFICATION_LEAD_HOURS cfg_ejemplo <> NOTIFICATION_LEAD_HOURS cfg_adelantado /\
  trigger_id cfg_ejemplo rt_ejemplo (PStr "s1") LEAD
    <> trigger_id cfg_adelantado rt_ejemplo (PStr "s1") LEAD /\
  jobs (snd (programar_avisos_para_sesion cfg_adelantado rt_ejemplo (PDict items_s1)
               evento_ejemplo mundo_con_aviso))
    !! trigger_id cfg_ejemplo rt_ejemplo (campo items_s1 "id" PNone) LEAD
  = jobs mundo_con_aviso
      !! trigger_id cfg_ejemplo rt_ejemplo (campo items_s1 "id" PNone) LEAD.
Proof.
  assert (Hne : NOTIFICATION_LEAD_HOURS cfg_ejemplo
                <> NOTIFICATION_LEAD_HOURS cfg_adelantado)
    by (vm_compute; discriminate).
  split; [exact Hne|]. split.
  - intros H. apply Hne.
    exact (proj1 (proj1 (proj1 (lead_id_follows_lead_hours cfg_ejemplo cfg_adelantado
                                  rt_ejemplo) (PStr "s1"))) H).
  - exact (proj2 (lead_id_follows_lead_hours cfg_ejemplo cfg_adelantado rt_ejemplo)
             Hne items_s1 evento_ejemplo mundo_con_aviso).
Defined.

(** ** Which sessions a pass schedules *)

(** X13. A pass schedules unknown sessions only: a job that is in the
    store after [check_for_races] and was not there before, or was
    different, sits under the LEAD id or the START id of a session id whose
    START id was not stored before the pass.  Hence, once the START notice
    of a session id is stored, a pass leaves what is stored under the LEAD
    id of that session id as it is: a LEAD notice that is missing is not
    added, one that is there is not replaced. *)
Theorem pass_schedules_unknown_sessions_only (cfg : Config) (rt : Runtime)
    (respuesta : http_reply) (w : World) :
  (forall (tid : string) (j : Job),
     jobs (snd (check_for_races cfg rt respuesta w)) !! tid = Some j ->
     jobs w !! tid = Some j \/
     exists (sesion_id : pyval) (k : kind),
       tid = trigger_id cfg rt sesion_id k /\
       jobs w !! trigger_id cfg rt sesion_id START = None) /\
  (forall sesion_id : pyval,
     is_Some (jobs w !! trigger_id cfg rt sesion_id START) ->
     jobs (snd (check_for_races cfg rt respuesta w)) !! trigger_id cfg rt sesion_id LEAD
     = jobs w !! trigger_id cfg rt sesion_id LEAD).
Proof.
  rewrite check_for_races_jobs. split; auto.
Qed.

Lemma pass_schedules_unknown_sessions_only_witness :
  is_Some (jobs mundo_con_aviso !! trigger_id cfg_ejemplo rt_ejemplo (PStr "s1") START) /\
  jobs (snd (check_for_races cfg_ejemplo rt_ejemplo respuesta_ejemplo mundo_con_aviso))
    !! trigger_id cfg_ejemplo rt_ejemplo (PStr "s1") LEAD
  = None.
Proof.
  assert (Hs : is_Some (jobs mundo_con_aviso
                          !! trigger_id cfg_ejemplo rt_ejemplo (PStr "s1") START))
    by (vm_compute; eexists; reflexivity).
  split; [exact Hs|].
  rewrite (proj2 (pass_schedules_unknown_sessions_only cfg_ejemplo rt_ejemplo
                    respuesta_ejemplo _) (PStr "s1") Hs).
  vm_compute. reflexivity.
Defined.

(** ** What the bot never does *)

(** X14. No trigger is ever stored: the scheduling routine, a pass and any
    number of passes leave the job store exactly as they found it, however
    they end.  Every [add_job] of the source gives [data], the scheduler
    raises on it before it touches the store, and nothing else in the pass
    writes to the store. *)
Theorem store_is_never_changed (cfg : Config) (rt : Runtime) (w : World) :
  (forall sesion nombre_evento : pyval,
     jobs (snd (programar_avisos_para_sesion cfg rt sesion nombre_evento w)) = jobs w) /\
  (forall respuesta : http_reply,
     jobs (snd (check_for_races cfg rt respuesta w)) = jobs w) /\
  (forall respuestas : list http_reply,
     jobs (run_repeating cfg rt respuestas w) = jobs w).
Proof.
  split; [|split].
  - intros. apply programar_jobs.
  - intros. apply check_for_races_jobs.
  - intros. apply run_repeating_jobs.
Qed.
